(** * UK rental tax calculator: tax estimation, reconciliation and
      deduplication, verified against the TypeScript sources.

    The development is a shallow embedding.  JavaScript numbers are modelled
    by exact rationals ([Q]); strings by Rocq strings (one byte per
    character, the range [btoa] accepts); React state by explicit state
    passing.  Built-ins whose behaviour is not part of the repository
    ([JSON.parse], [new Date(s).getTime()], number printing) are Section
    variables, so every general theorem holds for any behaviour of the
    built-in; reference instances are provided for concrete evaluation. *)

From stdpp Require Import base decidable list gmap strings.
From Stdlib Require Import ZArith QArith Qminmax Qabs Qround Lqa Lia.
From Stdlib Require Import Strings.String Strings.Ascii.
From Stdlib Require Import Lists.List Sorting.Sorted.
Import ListNotations.

Local Open Scope string_scope.
Local Open Scope Q_scope.

(* ================================================================== *)
(** ** Domain model ([types.ts]) *)
(* ================================================================== *)

(** The string enum [HMRCCategory].

    Modelled from the spec: the member [PERSONAL_000] is used by
    [Dashboard.tsx], [InvoiceManager.tsx] and [exportService.ts] but the
    enum declaration that contains it is not among the sources; the spec
    says that exactly one code denotes non-deductible personal spending.
    Like every other member its value is its own name. *)
Inductive HMRCCategory : Set :=
  | RENTAL_INC_001 | REPAIRS_101 | MGMT_201 | INSUR_301 | UTIL_401
  | COUNCIL_501 | ADVERT_501 | PROF_601 | MORT_INT_701 | TRAVEL_801
  | MISC_901 | PERSONAL_000 | UNCATEGORIZED.

Definition code (c : HMRCCategory) : string :=
  match c with
  | RENTAL_INC_001 => "RENTAL_INC_001" | REPAIRS_101 => "REPAIRS_101"
  | MGMT_201 => "MGMT_201" | INSUR_301 => "INSUR_301"
  | UTIL_401 => "UTIL_401" | COUNCIL_501 => "COUNCIL_501"
  | ADVERT_501 => "ADVERT_501" | PROF_601 => "PROF_601"
  | MORT_INT_701 => "MORT_INT_701" | TRAVEL_801 => "TRAVEL_801"
  | MISC_901 => "MISC_901" | PERSONAL_000 => "PERSONAL_000"
  | UNCATEGORIZED => "UNCATEGORIZED"
  end.

Definition all_categories : list HMRCCategory :=
  [RENTAL_INC_001; REPAIRS_101; MGMT_201; INSUR_301; UTIL_401; COUNCIL_501;
   ADVERT_501; PROF_601; MORT_INT_701; TRAVEL_801; MISC_901; PERSONAL_000;
   UNCATEGORIZED].

(** Values as they exist at run time.  A TypeScript cast
    ([parsed.category as HMRCCategory]) checks nothing, so a field typed
    [HMRCCategory] can hold any value that came out of [JSON.parse]. *)
#[warnings="-register-all"]
Inductive JsValue : Type :=
  | JUndefined
  | JNull
  | JBool (b : bool)
  | JNum (q : Q)
  | JStr (s : string)
  | JArr (vs : list JsValue)
  | JObj (fields : list (string * JsValue)).

(** [HMRCCategory.X] as a run-time value. *)
Definition cat (c : HMRCCategory) : JsValue := JStr (code c).

(** [v === HMRCCategory.c]: strict equality against a string constant. *)
Definition is_cat (v : JsValue) (c : HMRCCategory) : bool :=
  match v with
  | JStr s => String.eqb s (code c)
  | _ => false
  end.

(** Membership in the enumeration (what a validation step would check). *)
Definition known_category (v : JsValue) : bool :=
  existsb (is_cat v) all_categories.

Inductive TxStatus : Set := reconciled | pending | flagged.
Inductive TxSource : Set := bank_upload | manual.
Inductive OwnerTag : Set := TagD | TagJ.
Inductive InvStatus : Set := matched | unmatched | processing.

Record Transaction : Type := mkTransaction {
  t_id : string;
  t_date : string;
  t_description : string;
  t_amount : Q;
  t_propertyId : string;
  t_category : JsValue;
  t_status : TxStatus;
  t_source : TxSource;
  t_matchedInvoiceId : option string;
  t_tag : option OwnerTag
}.

Record Invoice : Type := mkInvoice {
  i_id : string;
  i_date : string;
  i_vendor : string;
  i_amount : Q;
  i_description : string;
  i_status : InvStatus;
  i_base64Image : option string;
  i_matchedTransactionId : option string
}.

Record Property : Type := mkProperty {
  p_id : string;
  p_name : string;
  p_address : string;
  p_keywords : option string
}.

(* ------------------------------------------------------------------ *)
(** *** Period resolver *)

Inductive TaxYear : Set := TY2023 | TY2024 | TY2025 | TY2026.

(** [parseInt(year.split('-')[0])] on the four literals of [TAX_YEARS]. *)
Definition startYear (y : TaxYear) : Z :=
  match y with
  | TY2023 => 2023 | TY2024 => 2024 | TY2025 => 2025 | TY2026 => 2026
  end%Z.

Definition digit_char (d : Z) : ascii := ascii_of_N (Z.to_N (48 + d)).

Fixpoint digits_fuel (fuel : nat) (n : Z) (acc : string) : string :=
  match fuel with
  | O => acc
  | S f =>
      let acc' := String (digit_char (n mod 10)) acc in
      if (n <? 10)%Z then acc' else digits_fuel f (n / 10)%Z acc'
  end.

(** Decimal printing of a non-negative integer (template-literal
    interpolation of an integer-valued number). *)
Definition Z_to_string (n : Z) : string :=
  digits_fuel (S (Z.to_nat (Z.log2 n))) n EmptyString.

Record TaxYearDates : Type := mkDates {
  ty_start : string; ty_end : string; ty_label : string
}.

Definition getTaxYearDates (y : TaxYear) : TaxYearDates :=
  let sy := startYear y in
  {| ty_start := Z_to_string sy ++ "-04-06";
     ty_end := Z_to_string (sy + 1) ++ "-04-05";
     ty_label := Z_to_string sy ++ "/" ++
                 substring 2 4 (Z_to_string (sy + 1)) |}.

(** [a <= b] on strings: lexicographic on character codes. *)
Definition str_le (a b : string) : bool :=
  match String.compare a b with Gt => false | _ => true end.

Definition isDateInTaxYear (dateStr : string) (y : TaxYear) : bool :=
  let d := getTaxYearDates y in
  str_le (ty_start d) dateStr && str_le dateStr (ty_end d).

(* ================================================================== *)
(** ** Tax estimation engine ([TaxEstimator.tsx], [estimate]) *)
(* ================================================================== *)

Module TaxEstimator.

Record Estimate : Type := mkEstimate {
  rentalIncome : Q;
  otherExpenses : Q;
  financeCosts : Q;
  netCashFlow : Q;
  taxableProfit : Q;
  estimatedTaxBeforeRelief : Q;
  financeCostRelief : Q;
  finalEstimatedTax : Q;
  allowance : Q;
  totalIncome : Q;
  taxableIncome : Q;
  basicTax : Q;
  higherTax : Q;
  additionalTax : Q
}.

(** [xs.reduce((a, b) => a + f(b), 0)] *)
Definition sum_by (f : Transaction -> Q) (xs : list Transaction) : Q :=
  fold_left (fun a b => a + f b) xs 0.

Definition yearTransactions (transactions : list Transaction) (y : TaxYear)
  : list Transaction :=
  List.filter (fun t => isDateInTaxYear (t_date t) y) transactions.

Definition is_income (t : Transaction) : bool :=
  if Qlt_le_dec 0 (t_amount t) then true else false.

Definition is_finance (t : Transaction) : bool :=
  is_cat (t_category t) MORT_INT_701.

(** The filter of [otherExpenses]:
    [t.amount < 0 && t.category !== HMRCCategory.MORT_INT_701]. *)
Definition is_other_expense (t : Transaction) : bool :=
  (if Qlt_le_dec (t_amount t) 0 then true else false)
  && negb (is_cat (t_category t) MORT_INT_701).

Definition rentalIncome_of (ys : list Transaction) : Q :=
  sum_by t_amount (List.filter is_income ys).

Definition financeCosts_of (ys : list Transaction) : Q :=
  sum_by (fun b => Qabs (t_amount b)) (List.filter is_finance ys).

Definition otherExpenses_of (ys : list Transaction) : Q :=
  sum_by (fun b => Qabs (t_amount b)) (List.filter is_other_expense ys).

(** Step 4 of the estimate: the personal allowance, tapered above 100k. *)
Definition allowance_of (total : Q) : Q :=
  if Qlt_le_dec 100000 total
  then Qmax 0 (12570 - (total - 100000) / 2)
  else 12570.

Definition taxableIncome_of (total : Q) : Q :=
  Qmax 0 (total - allowance_of total).

Definition basicBand : Q := 37700.
Definition higherBand : Q := 125140 - 50270.

(** Step 5: the three bands, as the mutable [remainingTaxable] is threaded
    through them.  Returns (basicTax, higherTax, additionalTax). *)
Definition bands (taxable : Q) : Q * Q * Q :=
  let remaining0 := taxable in
  let amountInBasic := Qmin remaining0 basicBand in
  let basic := amountInBasic * (20 # 100) in
  let remaining1 := remaining0 - amountInBasic in
  let '(higher, remaining2) :=
    if Qlt_le_dec 0 remaining1
    then let amountInHigher := Qmin remaining1 higherBand in
         (amountInHigher * (40 # 100), remaining1 - amountInHigher)
    else (0, remaining1) in
  let additional :=
    if Qlt_le_dec 0 remaining2 then remaining2 * (45 # 100) else 0 in
  (basic, higher, additional).

Definition taxBeforeRelief_of (taxable : Q) : Q :=
  let '(b, h, a) := bands taxable in b + h + a.

(** Gross tax before relief as a function of total income. *)
Definition grossTax (total : Q) : Q :=
  taxBeforeRelief_of (taxableIncome_of total).

Definition relief_of (fc tbr : Q) : Q := Qmin (fc * (20 # 100)) tbr.

Definition estimate (transactions : list Transaction) (y : TaxYear)
    (otherIncome : Q) : Estimate :=
  let ys := yearTransactions transactions y in
  let ri := rentalIncome_of ys in
  let fc := financeCosts_of ys in
  let oe := otherExpenses_of ys in
  let tp := Qmax 0 (ri - oe) in
  let ncf := ri - oe - fc in
  let total := tp + otherIncome in
  let al := allowance_of total in
  let ti := Qmax 0 (total - al) in
  let '(b, h, a) := bands ti in
  let tbr := b + h + a in
  let relief := Qmin (fc * (20 # 100)) tbr in
  let final := Qmax 0 (tbr - relief) in
  {| rentalIncome := ri; otherExpenses := oe; financeCosts := fc;
     netCashFlow := ncf; taxableProfit := tp;
     estimatedTaxBeforeRelief := tbr; financeCostRelief := relief;
     finalEstimatedTax := final; allowance := al; totalIncome := total;
     taxableIncome := ti; basicTax := b; higherTax := h;
     additionalTax := a |}.

End TaxEstimator.

(* ================================================================== *)
(** ** Dashboard totals ([Dashboard.tsx], [stats]) *)
(* ================================================================== *)

Module Dashboard.

(** "Helper to check if expense is deductible (not personal)". *)
Definition isDeductibleExpense (t : Transaction) : bool :=
  (if Qlt_le_dec (t_amount t) 0 then true else false)
  && negb (is_cat (t_category t) PERSONAL_000).

Record Stats : Type := mkStats {
  income : Q; expenses : Q; profit : Q; uncategorizedCount : nat
}.

Definition stats (transactions : list Transaction) (y : TaxYear) : Stats :=
  let filteredTransactions :=
    List.filter (fun t => isDateInTaxYear (t_date t) y) transactions in
  let income :=
    fold_left (fun acc t => acc + t_amount t)
      (List.filter (fun t => if Qlt_le_dec 0 (t_amount t) then true else false)
                   filteredTransactions) 0 in
  let expenses :=
    fold_left (fun acc t => acc + Qabs (t_amount t))
      (List.filter isDeductibleExpense filteredTransactions) 0 in
  {| income := income; expenses := expenses; profit := income - expenses;
     uncategorizedCount :=
       List.length (List.filter (fun t => is_cat (t_category t) UNCATEGORIZED)
                                filteredTransactions) |}.

End Dashboard.

(* ================================================================== *)
(** ** JavaScript values and string helpers *)
(* ================================================================== *)

Module Js.

Definition LF : ascii := "010"%char.
Definition dquote : ascii := "034"%char.

(** ToBoolean.  (NaN is not a value of the model.) *)
Definition truthy (v : JsValue) : bool :=
  match v with
  | JUndefined | JNull => false
  | JBool b => b
  | JNum q => negb (Qeq_bool q 0)
  | JStr s => negb (String.eqb s EmptyString)
  | JArr _ | JObj _ => true
  end.

(** [a || b] *)
Definition or_else (a b : JsValue) : JsValue := if truthy a then a else b.

(** The last field named [k]: [JSON.parse] keeps the last duplicate. *)
Fixpoint lookup_field (k : string) (fields : list (string * JsValue))
  : option JsValue :=
  match fields with
  | [] => None
  | (k', v) :: rest =>
      match lookup_field k rest with
      | Some w => Some w
      | None => if String.eqb k k' then Some v else None
      end
  end.

(** [v.k] for a data property [k].  [None] is the TypeError raised on
    [null] and [undefined]; primitives and arrays have no such property. *)
Definition get_prop (v : JsValue) (k : string) : option JsValue :=
  match v with
  | JUndefined | JNull => None
  | JObj fields =>
      Some (match lookup_field k fields with Some w => w | None => JUndefined end)
  | _ => Some JUndefined
  end.

Fixpoint drop (n : nat) (s : string) : string :=
  match n, s with
  | O, _ => s
  | S n', String _ r => drop n' r
  | S _, EmptyString => EmptyString
  end.

(** [s.replace(/PAT\n?/g, '')] for a literal, non-empty [pat]: every
    occurrence of [pat], with one following line feed if there is one, is
    removed, scanning left to right. *)
Fixpoint remove_all_fuel (pat : string) (fuel : nat) (s : string) : string :=
  match fuel with
  | O => s
  | S f =>
      match s with
      | EmptyString => EmptyString
      | String c rest =>
          if String.prefix pat s then
            let r := drop (String.length pat) s in
            let r' := match r with
                      | String d r2 => if Ascii.eqb d LF then r2 else r
                      | EmptyString => r
                      end in
            remove_all_fuel pat f r'
          else String c (remove_all_fuel pat f rest)
      end
  end.

Definition remove_all (pat s : string) : string :=
  remove_all_fuel pat (S (String.length s)) s.

(** White space of [String.prototype.trim] among the byte characters. *)
Definition is_trim_ws (c : ascii) : bool :=
  let n := N_of_ascii c in
  ((9 <=? n) && (n <=? 13) || (n =? 32) || (n =? 160))%N.

Fixpoint trim_start (s : string) : string :=
  match s with
  | String c r => if is_trim_ws c then trim_start r else s
  | EmptyString => EmptyString
  end.

(** Drops trailing white space: a character is kept iff something that is
    not white space follows or it is not white space itself. *)
Fixpoint trim_end (s : string) : string :=
  match s with
  | EmptyString => EmptyString
  | String c r =>
      match trim_end r with
      | EmptyString => if is_trim_ws c then EmptyString else String c EmptyString
      | r' => String c r'
      end
  end.

Definition trim (s : string) : string := trim_end (trim_start s).

(** The longest prefix of [s] that ends with [ch] (greedy [[\s\S]*ch]). *)
Fixpoint upto_last (ch : ascii) (s : string) : option string :=
  match s with
  | EmptyString => None
  | String c r =>
      match upto_last ch r with
      | Some p => Some (String c p)
      | None => if Ascii.eqb c ch then Some (String c EmptyString) else None
      end
  end.

(** [s.match(/\{[\s\S]*\}|\[[\s\S]*\]/)]: at the leftmost position where
    one of the alternatives matches, the greedy match. *)
Fixpoint match_json_span (s : string) : option string :=
  match s with
  | EmptyString => None
  | String c r =>
      if Ascii.eqb c "{"%char then
        match upto_last "}"%char r with
        | Some body => Some (String c body)
        | None => match_json_span r
        end
      else if Ascii.eqb c "["%char then
        match upto_last "]"%char r with
        | Some body => Some (String c body)
        | None => match_json_span r
        end
      else match_json_span r
  end.

End Js.

(* ================================================================== *)
(** ** Categorization orchestrator ([geminiService.ts]) *)
(* ================================================================== *)

Module GeminiService.
Import Js.

Record Categorization : Type := mkCategorization {
  c_category : JsValue;
  c_propertyId : JsValue;
  c_confidence : JsValue;
  c_reasoning : JsValue
}.

(** The value returned by the [catch] branch of [categorizeTransaction]:
    [{ category: HMRCCategory.UNCATEGORIZED, confidence: 0 }]. *)
Definition on_error : Categorization :=
  {| c_category := cat UNCATEGORIZED; c_propertyId := JUndefined;
     c_confidence := JNum 0; c_reasoning := JUndefined |}.

(** The text handed to [JSON.parse] (the local [cleanJson]). *)
Definition cleanJson (text : string) : string :=
  let cleaned := trim (remove_all "```" (remove_all "```json" text)) in
  match match_json_span cleaned with
  | Some m => m
  | None => cleaned
  end.

Section Service.

(** [JSON.parse]; [None] when it throws. *)
Variable JSON_parse : string -> option JsValue.

(** The external classifier, [model.generateContent(prompt)] followed by
    [response.text()], as a function of the three arguments the prompt is
    built from; [None] when the call throws or rejects. *)
Variable classifier : string -> Q -> list Property -> option string.

Definition robustJsonParse (text : string) : JsValue :=
  match JSON_parse (cleanJson text) with
  | Some v => v
  | None => JObj []
  end.

Definition categorizeTransaction (description : string) (amount : Q)
    (properties : list Property) : Categorization :=
  match classifier description amount properties with
  | None => on_error
  | Some text =>
      let parsed := robustJsonParse text in
      match get_prop parsed "category", get_prop parsed "propertyId",
            get_prop parsed "confidence", get_prop parsed "reasoning" with
      | Some c, Some p, Some conf, Some r =>
          {| c_category := or_else c (cat UNCATEGORIZED);
             c_propertyId := or_else p JUndefined;
             c_confidence := or_else conf (JNum (5 # 10));
             c_reasoning := r |}
      | _, _, _, _ => on_error
      end
  end.

End Service.

End GeminiService.

(* ================================================================== *)
(** ** Reference instance of [JSON.parse] *)
(* ================================================================== *)

(** A recursive-descent reader for the JSON grammar (ECMA-404), used to
    evaluate the service on concrete replies.  Strings are byte strings, so
    a [\u] escape above [00FF] is rejected here. *)
Module JsonRef.
Import Js.

Definition is_ws (c : ascii) : bool :=
  let n := N_of_ascii c in ((n =? 32) || (n =? 9) || (n =? 10) || (n =? 13))%N.

Fixpoint skip_ws (s : string) : string :=
  match s with
  | String c r => if is_ws c then skip_ws r else s
  | EmptyString => EmptyString
  end.

Definition is_digit (c : ascii) : bool :=
  let n := N_of_ascii c in ((48 <=? n) && (n <=? 57))%N.

Definition digit_val (c : ascii) : Z := Z.of_N (N_of_ascii c) - 48.

(** Reads a run of digits: its value, its length, and the rest. *)
Fixpoint read_digits (s : string) (acc : Z) (len : nat) : Z * nat * string :=
  match s with
  | String c r =>
      if is_digit c then read_digits r (10 * acc + digit_val c)%Z (S len)
      else (acc, len, s)
  | EmptyString => (acc, len, s)
  end.

Definition pow10 (n : Z) : Q :=
  if (0 <=? n)%Z then inject_Z (10 ^ n) else 1 / inject_Z (10 ^ (- n)).

Definition read_number (s : string) : option (Q * string) :=
  let '(neg, s1) :=
    match s with
    | String c r => if Ascii.eqb c "-"%char then (true, r) else (false, s)
    | EmptyString => (false, s)
    end in
  let '(ip, ilen, s2) := read_digits s1 0%Z O in
  let leading_zero :=
    match s1 with
    | String c _ => Ascii.eqb c "0"%char && Nat.ltb 1 ilen
    | EmptyString => false
    end in
  if Nat.eqb ilen 0 || leading_zero then None else
  let frac :=
    match s2 with
    | String c r =>
        if Ascii.eqb c "."%char then
          let '(fp, flen, s3) := read_digits r 0%Z O in
          if Nat.eqb flen 0 then None else Some (fp, flen, s3)
        else Some (0%Z, O, s2)
    | EmptyString => Some (0%Z, O, s2)
    end in
  match frac with
  | None => None
  | Some (fp, flen, s3) =>
      let expo :=
        match s3 with
        | String c r =>
            if Ascii.eqb c "e"%char || Ascii.eqb c "E"%char then
              let '(eneg, r1) :=
                match r with
                | String d r' =>
                    if Ascii.eqb d "-"%char then (true, r')
                    else if Ascii.eqb d "+"%char then (false, r')
                    else (false, r)
                | EmptyString => (false, r)
                end in
              let '(ev, elen, s4) := read_digits r1 0%Z O in
              if Nat.eqb elen 0 then None
              else Some ((if eneg then - ev else ev)%Z, s4)
            else Some (0%Z, s3)
        | EmptyString => Some (0%Z, s3)
        end in
      match expo with
      | None => None
      | Some (ev, s4) =>
          let mant := (ip * 10 ^ Z.of_nat flen + fp)%Z in
          let q := Qred (inject_Z mant * pow10 (ev - Z.of_nat flen)) in
          Some (if neg then Qred (- q) else q, s4)
      end
  end.

Definition hex_val (c : ascii) : option Z :=
  let n := Z.of_N (N_of_ascii c) in
  if ((48 <=? n) && (n <=? 57))%Z then Some (n - 48)%Z
  else if ((97 <=? n) && (n <=? 102))%Z then Some (n - 87)%Z
  else if ((65 <=? n) && (n <=? 70))%Z then Some (n - 55)%Z
  else None.

Definition read_hex4 (s : string) : option (ascii * string) :=
  match s with
  | String a (String b (String c (String d r))) =>
      match hex_val a, hex_val b, hex_val c, hex_val d with
      | Some x, Some y, Some z, Some w =>
          let n := (((x * 16 + y) * 16 + z) * 16 + w)%Z in
          if (n <? 256)%Z then Some (ascii_of_N (Z.to_N n), r) else None
      | _, _, _, _ => None
      end
  | _ => None
  end.

(** The characters after an opening quote, up to the closing one. *)
Fixpoint read_string (fuel : nat) (s : string) : option (string * string) :=
  match fuel with
  | O => None
  | S f =>
      match s with
      | EmptyString => None
      | String c r =>
          if Ascii.eqb c dquote then Some (EmptyString, r)
          else if Ascii.eqb c "\"%char then
            match r with
            | String e r' =>
                let plain (x : ascii) :=
                  match read_string f r' with
                  | Some (body, rest) => Some (String x body, rest)
                  | None => None
                  end in
                if Ascii.eqb e dquote then plain dquote
                else if Ascii.eqb e "\"%char then plain "\"%char
                else if Ascii.eqb e "/"%char then plain "/"%char
                else if Ascii.eqb e "b"%char then plain "008"%char
                else if Ascii.eqb e "f"%char then plain "012"%char
                else if Ascii.eqb e "n"%char then plain "010"%char
                else if Ascii.eqb e "r"%char then plain "013"%char
                else if Ascii.eqb e "t"%char then plain "009"%char
                else if Ascii.eqb e "u"%char then
                  match read_hex4 r' with
                  | Some (x, r'') =>
                      match read_string f r'' with
                      | Some (body, rest) => Some (String x body, rest)
                      | None => None
                      end
                  | None => None
                  end
                else None
            | EmptyString => None
            end
          else if (N_of_ascii c <? 32)%N then None
          else
            match read_string f r with
            | Some (body, rest) => Some (String c body, rest)
            | None => None
            end
      end
  end.

Fixpoint read_value (fuel : nat) (s : string) : option (JsValue * string) :=
  match fuel with
  | O => None
  | S f =>
      match skip_ws s with
      | EmptyString => None
      | String c r as s' =>
          if Ascii.eqb c "{"%char then
            match skip_ws r with
            | String d r' as r0 =>
                if Ascii.eqb d "}"%char then Some (JObj [], r')
                else read_members f r0 []
            | EmptyString => None
            end
          else if Ascii.eqb c "["%char then
            match skip_ws r with
            | String d r' as r0 =>
                if Ascii.eqb d "]"%char then Some (JArr [], r')
                else read_elements f r0 []
            | EmptyString => None
            end
          else if Ascii.eqb c dquote then
            match read_string f r with
            | Some (str, rest) => Some (JStr str, rest)
            | None => None
            end
          else if String.prefix "true" s' then Some (JBool true, drop 4 s')
          else if String.prefix "false" s' then Some (JBool false, drop 5 s')
          else if String.prefix "null" s' then Some (JNull, drop 4 s')
          else
            match read_number s' with
            | Some (q, rest) => Some (JNum q, rest)
            | None => None
            end
      end
  end
with read_elements (fuel : nat) (s : string) (acc : list JsValue)
  : option (JsValue * string) :=
  match fuel with
  | O => None
  | S f =>
      match read_value f s with
      | Some (v, rest) =>
          match skip_ws rest with
          | String c r =>
              if Ascii.eqb c ","%char then read_elements f r (v :: acc)
              else if Ascii.eqb c "]"%char
                   then Some (JArr (List.rev (v :: acc)), r)
                   else None
          | EmptyString => None
          end
      | None => None
      end
  end
with read_members (fuel : nat) (s : string) (acc : list (string * JsValue))
  : option (JsValue * string) :=
  match fuel with
  | O => None
  | S f =>
      match skip_ws s with
      | String q r =>
          if Ascii.eqb q dquote then
            match read_string f r with
            | Some (key, rest) =>
                match skip_ws rest with
                | String c r1 =>
                    if Ascii.eqb c ":"%char then
                      match read_value f r1 with
                      | Some (v, rest2) =>
                          match skip_ws rest2 with
                          | String d r2 =>
                              if Ascii.eqb d ","%char
                              then read_members f r2 ((key, v) :: acc)
                              else if Ascii.eqb d "}"%char
                                   then Some (JObj (List.rev ((key, v) :: acc)), r2)
                                   else None
                          | EmptyString => None
                          end
                      | None => None
                      end
                    else None
                | EmptyString => None
                end
            | None => None
            end
          else None
      | EmptyString => None
      end
  end.

(** A whole text: one value, white space around it, nothing else. *)
Definition json_parse (s : string) : option JsValue :=
  match read_value (2 * String.length s + 2) s with
  | Some (v, rest) =>
      match skip_ws rest with
      | EmptyString => Some v
      | String _ _ => None
      end
  | None => None
  end.

(** ["s"] with its quotes, for writing JSON texts. *)
Definition quoted (s : string) : string :=
  String dquote (s ++ String dquote EmptyString).

End JsonRef.

(* ================================================================== *)
(** ** Base64 ([btoa]) and number printing *)
(* ================================================================== *)

Module Encoding.

Definition b64_alphabet : string :=
  "ABCDEFGHIJKLMNOPQRSTUVWXYZabcdefghijklmnopqrstuvwxyz0123456789+/".

Definition b64_char (n : N) : ascii :=
  match String.get (N.to_nat n) b64_alphabet with
  | Some c => c
  | None => "="%char
  end.

(** [btoa] on a byte string: three bytes give four characters, the tail is
    padded with [=].  (On a string with a character above 255 [btoa]
    throws; such strings are outside this string type.) *)
Fixpoint btoa (s : string) : string :=
  match s with
  | EmptyString => EmptyString
  | String a EmptyString =>
      let x := N_of_ascii a in
      String (b64_char (x / 4))
        (String (b64_char ((x mod 4) * 16)) "==")
  | String a (String b EmptyString) =>
      let x := N_of_ascii a in
      let y := N_of_ascii b in
      String (b64_char (x / 4))
        (String (b64_char ((x mod 4) * 16 + y / 16))
           (String (b64_char ((y mod 16) * 4)) "="))
  | String a (String b (String c r)) =>
      let x := N_of_ascii a in
      let y := N_of_ascii b in
      let z := N_of_ascii c in
      String (b64_char (x / 4))
        (String (b64_char ((x mod 4) * 16 + y / 16))
           (String (b64_char ((y mod 16) * 4 + z / 64))
              (String (b64_char (z mod 64)) (btoa r))))
  end%N.

(** [s.slice(0, 16)] *)
Definition slice16 (s : string) : string := substring 0 16 s.

Fixpoint frac_digits (fuel : nat) (num : Z) (den : Z) : string :=
  match fuel with
  | O => EmptyString
  | S f =>
      if (num =? 0)%Z then EmptyString
      else String (digit_char ((10 * num) / den))
                  (frac_digits f ((10 * num) mod den) den)
  end.

(** Reference instance of Number-to-String conversion: the decimal
    expansion, which is what JavaScript prints for the amounts of a bank
    statement (integers and short decimals such as [-85.5]). *)
Definition num_to_string (q : Q) : string :=
  let n := Qnum q in
  let d := Z.pos (Qden q) in
  let a := Z.abs n in
  let ip := (a / d)%Z in
  let fp := (a mod d)%Z in
  ((if (n <? 0)%Z then "-" else EmptyString)
   ++ Z_to_string ip
   ++ (if (fp =? 0)%Z then EmptyString
       else String "."%char (frac_digits 20 fp d)))%string.

End Encoding.

(* ================================================================== *)
(** ** Application state *)
(* ================================================================== *)

(** The two collections owned by [App] and handed to the managers with
    their setters. *)
Record AppState : Type := mkState {
  transactions : list Transaction;
  invoices : list Invoice
}.

(* ================================================================== *)
(** ** Transaction manager ([TransactionManager.tsx]) *)
(* ================================================================== *)

Module TransactionManager.
Import Js Encoding GeminiService.

Record RawRow : Type := mkRow {
  r_date : string; r_description : string; r_amount : Q
}.

Inductive ToastType : Set := success | warning.

Record ImportOutcome : Type := mkOutcome {
  o_transactions : list Transaction;
  o_addedCount : nat;
  o_skippedCount : nat;
  o_toast : ToastType
}.

(** The manual-entry form. *)
Record ManualForm : Type := mkForm {
  manualDate : string;
  manualDesc : string;
  manualAmount : string;
  manualPropId : string;
  manualCat : HMRCCategory;
  manualTag : option OwnerTag
}.

Section Manager.

(** Template-literal interpolation of a number. *)
Variable Number_toString : Q -> string.
(** [parseFloat]; [None] is NaN. *)
Variable parseFloat : string -> option Q.
(** The awaited [categorizeTransaction]. *)
Variable categorize : string -> Q -> list Property -> Categorization.

(** [btoa(`${item.date}-${item.description}-${item.amount}`).slice(0, 16)] *)
Definition deterministicId (item : RawRow) : string :=
  slice16 (btoa (r_date item ++ "-" ++ r_description item ++ "-"
                 ++ Number_toString (r_amount item))).

(** [btoa(`manual-${manualDate}-${manualDesc}-${amount}-${Date.now()}`)
      .slice(0, 16)] *)
Definition manualId (date desc : string) (amount : Q) (now : Z) : string :=
  slice16 (btoa ("manual-" ++ date ++ "-" ++ desc ++ "-"
                 ++ Number_toString amount ++ "-"
                 ++ Number_toString (inject_Z now))).

(** [new Set(transactions.map(t => t.id))] *)
Definition existingIds (txs : list Transaction) : gset string :=
  list_to_set (List.map t_id txs).

Definition assignedPropertyId (ai : Categorization)
    (properties : list Property) : string :=
  let fallback :=
    match properties with
    | p :: _ => p_id p
    | [] => EmptyString
    end in
  match c_propertyId ai with
  | JStr s =>
      if truthy (JStr s) && existsb (fun p => String.eqb (p_id p) s) properties
      then s else fallback
  | _ => fallback
  end.

(** The body of the callback of [dataItems.map]: [None] for a skipped
    row, the new transaction otherwise. *)
Definition importRow (ids : gset string) (properties : list Property)
    (item : RawRow) : option Transaction :=
  let id := deterministicId item in
  if decide (id ∈ ids) then None
  else
    let aiResult :=
      categorize (r_description item) (r_amount item) properties in
    Some {| t_id := id; t_date := r_date item;
            t_description := r_description item; t_amount := r_amount item;
            t_propertyId := assignedPropertyId aiResult properties;
            t_category := c_category aiResult; t_status := pending;
            t_source := bank_upload; t_matchedInvoiceId := None;
            t_tag := None |}.

Fixpoint non_null (rs : list (option Transaction)) : list Transaction :=
  match rs with
  | [] => []
  | Some t :: rest => t :: non_null rest
  | None :: rest => non_null rest
  end.

Fixpoint count_null (rs : list (option Transaction)) : nat :=
  match rs with
  | [] => O
  | Some _ :: rest => count_null rest
  | None :: rest => S (count_null rest)
  end.

Definition processImportedData (txs : list Transaction)
    (properties : list Property) (dataItems : list RawRow) : ImportOutcome :=
  let ids := existingIds txs in
  let promises := List.map (importRow ids properties) dataItems in
  let results := non_null promises in
  let addedCount := List.length results in
  let skippedCount := count_null promises in
  {| o_transactions := txs ++ results;
     o_addedCount := addedCount;
     o_skippedCount := skippedCount;
     o_toast := if Nat.ltb 0 addedCount then success else warning |}.

(** [handleManualAdd]: the transactions after the form is submitted at
    time [now]. *)
Definition handleManualAdd (form : ManualForm) (now : Z)
    (txs : list Transaction) : list Transaction :=
  match parseFloat (manualAmount form) with
  | None => txs
  | Some amount =>
      if String.eqb (manualDesc form) EmptyString then txs
      else
        txs ++ [ {| t_id := manualId (manualDate form) (manualDesc form)
                              amount now;
                    t_date := manualDate form;
                    t_description := manualDesc form;
                    t_amount := amount;
                    t_propertyId := manualPropId form;
                    t_category := cat (manualCat form);
                    t_status := reconciled;
                    t_source := manual;
                    t_matchedInvoiceId := None;
                    t_tag := manualTag form |} ]
  end.

End Manager.

(** [executeDelete]: [deleteTarget] is ['bulk'], a transaction id, or
    [null].  Only [setTransactions] is called: the invoices are not
    touched. *)
Definition executeDelete (deleteTarget : option string)
    (selectedIds : gset string) (st : AppState) : AppState :=
  match deleteTarget with
  | Some target =>
      if String.eqb target "bulk" then
        {| transactions :=
             List.filter (fun t => negb (bool_decide (t_id t ∈ selectedIds)))
                         (transactions st);
           invoices := invoices st |}
      else
        {| transactions :=
             List.filter (fun t => negb (String.eqb (t_id t) target))
                         (transactions st);
           invoices := invoices st |}
  | None => st
  end.

(** The number of stored transactions that carry the identity [id]. *)
Definition stored_with_id (id : string) (txs : list Transaction) : nat :=
  List.length (List.filter (fun t => String.eqb (t_id t) id) txs).

Definition bulkApplyTag (tag : option OwnerTag) (selectedIds : gset string)
    (st : AppState) : AppState :=
  {| transactions :=
       List.map (fun t =>
         if bool_decide (t_id t ∈ selectedIds)
         then {| t_id := t_id t; t_date := t_date t;
                 t_description := t_description t; t_amount := t_amount t;
                 t_propertyId := t_propertyId t; t_category := t_category t;
                 t_status := t_status t; t_source := t_source t;
                 t_matchedInvoiceId := t_matchedInvoiceId t; t_tag := tag |}
         else t) (transactions st);
     invoices := invoices st |}.

End TransactionManager.

(* ================================================================== *)
(** ** Invoice manager ([InvoiceManager.tsx]) *)
(* ================================================================== *)

Module InvoiceManager.

(** What [parseInvoiceImage] resolves to, field by field; [None] is a
    field the extraction left out. *)
Record ExtractedData : Type := mkExtracted {
  x_date : option string;
  x_vendor : option string;
  x_amount : option Q;
  x_description : option string
}.

(** [s || d] on an optional string: the empty string is falsy. *)
Definition str_or (s : option string) (d : string) : string :=
  match s with
  | Some v => if String.eqb v EmptyString then d else v
  | None => d
  end.

(** [n || d] on an optional number: zero is falsy. *)
Definition num_or (n : option Q) (d : Q) : Q :=
  match n with
  | Some v => if Qeq_bool v 0 then d else v
  | None => d
  end.

(** Truthiness of an optional id ([if (t.matchedInvoiceId)]). *)
Definition has_id (o : option string) : bool :=
  match o with
  | Some v => negb (String.eqb v EmptyString)
  | None => false
  end.

Definition with_link (t : Transaction) (link : option string)
    (status : TxStatus) : Transaction :=
  {| t_id := t_id t; t_date := t_date t; t_description := t_description t;
     t_amount := t_amount t; t_propertyId := t_propertyId t;
     t_category := t_category t; t_status := status; t_source := t_source t;
     t_matchedInvoiceId := link; t_tag := t_tag t |}.

Definition with_status (t : Transaction) (status : TxStatus) : Transaction :=
  with_link t (t_matchedInvoiceId t) status.

(** [prev.map(t => t.id === tid ? { ...t, matchedInvoiceId: link,
    status } : t)], the update applied by a match and by the deletion of an
    invoice. *)
Definition relink (tid : string) (link : option string) (status : TxStatus)
    (txs : list Transaction) : list Transaction :=
  List.map (fun t => if String.eqb (t_id t) tid
                     then with_link t link status else t) txs.

Definition msPerDay : Z := (1000 * 60 * 60 * 24)%Z.

Section Manager.

(** [new Date(s).getTime()]; [None] is NaN (an invalid date). *)
Variable Date_getTime : string -> option Z.

(** The comparator of the sort, [getTime(b.date) - getTime(a.date)]; a NaN
    result counts as 0, as in the language's SortCompare. *)
Definition byDateDesc (a b : Transaction) : Z :=
  match Date_getTime (t_date b), Date_getTime (t_date a) with
  | Some tb, Some ta => (tb - ta)%Z
  | _, _ => 0%Z
  end.

(** [Array.prototype.sort] is stable; it is modelled by insertion. *)
Fixpoint insert_sorted (x : Transaction) (l : list Transaction)
  : list Transaction :=
  match l with
  | [] => [x]
  | y :: l' =>
      if (byDateDesc x y <=? 0)%Z then x :: y :: l'
      else y :: insert_sorted x l'
  end.

Definition sort_desc (l : list Transaction) : list Transaction :=
  List.fold_right insert_sorted [] l.

(** The transaction's date is a valid one. *)
Definition dated (t : Transaction) : Prop :=
  Date_getTime (t_date t) <> None.

Definition time_of (t : Transaction) : Z :=
  match Date_getTime (t_date t) with
  | Some z => z
  | None => 0%Z
  end.

(** Most recent first. *)
Definition recent_first (l : list Transaction) : Prop :=
  StronglySorted (fun a b => (time_of b <= time_of a)%Z) l.

Definition is_checklist_expense (y : TaxYear) (t : Transaction) : bool :=
  isDateInTaxYear (t_date t) y
  && (if Qlt_le_dec (t_amount t) 0 then true else false)
  && negb (is_cat (t_category t) PERSONAL_000)
  && negb (is_cat (t_category t) UNCATEGORIZED).

Definition expenseTransactions (txs : list Transaction) (y : TaxYear)
  : list Transaction :=
  sort_desc (List.filter (is_checklist_expense y) txs).

(** [Math.ceil(Math.abs(tDate - iDate) / (1000*60*60*24))] *)
Definition diffDays (tDate iDate : Z) : Z :=
  Qceiling (inject_Z (Z.abs (tDate - iDate)) / inject_Z msPerDay).

Definition amountMatch (t : Transaction) (inv : Invoice) : bool :=
  if Qlt_le_dec (Qabs (Qabs (t_amount t) - i_amount inv)) (10 # 100)
  then true else false.

(** The predicate handed to [find]. *)
Definition is_match (inv : Invoice) (t : Transaction) : bool :=
  if has_id (t_matchedInvoiceId t) then false
  else
    match Date_getTime (t_date t), Date_getTime (i_date inv) with
    | Some tDate, Some iDate =>
        amountMatch t inv && (diffDays tDate iDate <=? 7)%Z
    | _, _ => false
    end.

Definition find_match (txs : list Transaction) (y : TaxYear) (inv : Invoice)
  : option Transaction :=
  List.find (is_match inv) (expenseTransactions txs y).

(** [processFile] once the file is read: [extracted] is the result of
    [parseInvoiceImage] ([None] when it throws), [newId] the random id,
    [today] the current date and [base64] the payload. *)
Definition processFile (y : TaxYear) (extracted : option ExtractedData)
    (newId today base64 : string) (st : AppState) : AppState :=
  match extracted with
  | Some x =>
      let newInvoice :=
        {| i_id := newId;
           i_date := str_or (x_date x) today;
           i_vendor := str_or (x_vendor x) "Unknown Vendor";
           i_amount := num_or (x_amount x) 0;
           i_description := str_or (x_description x) "Uploaded Invoice";
           i_status := unmatched;
           i_base64Image := Some base64;
           i_matchedTransactionId := None |} in
      match find_match (transactions st) y newInvoice with
      | Some m =>
          {| transactions :=
               relink (t_id m) (Some newId) reconciled (transactions st);
             invoices :=
               invoices st ++
               [ {| i_id := newId; i_date := i_date newInvoice;
                    i_vendor := i_vendor newInvoice;
                    i_amount := i_amount newInvoice;
                    i_description := i_description newInvoice;
                    i_status := matched;
                    i_base64Image := Some base64;
                    i_matchedTransactionId := Some (t_id m) |} ] |}
      | None =>
          {| transactions := transactions st;
             invoices := invoices st ++ [newInvoice] |}
      end
  | None =>
      {| transactions := transactions st;
         invoices :=
           invoices st ++
           [ {| i_id := newId; i_date := today;
                i_vendor := "Unknown (AI Failed)"; i_amount := 0;
                i_description := "Manual Review Required";
                i_status := unmatched; i_base64Image := Some base64;
                i_matchedTransactionId := None |} ] |}
  end.

End Manager.

(** [toggleMatch]: flips the status of the transaction [id], whether or not
    a receipt is linked to it. *)
Definition toggleMatch (id : string) (st : AppState) : AppState :=
  {| transactions :=
       List.map (fun t =>
         if negb (String.eqb (t_id t) id) then t
         else with_status t
                (match t_status t with
                 | reconciled => pending
                 | _ => reconciled
                 end))
         (transactions st);
     invoices := invoices st |}.

(** [deleteInvoice], [confirmed] being the answer to the dialog. *)
Definition deleteInvoice (confirmed : bool) (id : string) (st : AppState)
  : AppState :=
  if negb confirmed then st
  else
    let invoiceToDelete :=
      List.find (fun inv => String.eqb (i_id inv) id) (invoices st) in
    let txs :=
      match invoiceToDelete with
      | Some inv =>
          match i_matchedTransactionId inv with
          | Some tid =>
              if String.eqb tid EmptyString then transactions st
              else relink tid None pending (transactions st)
          | None => transactions st
          end
      | None => transactions st
      end in
    {| transactions := txs;
       invoices :=
         List.filter (fun inv => negb (String.eqb (i_id inv) id))
                     (invoices st) |}.

End InvoiceManager.

(* ================================================================== *)
(** ** Link symmetry between invoices and transactions *)
(* ================================================================== *)

Module Links.

Definition opt_is (o : option string) (s : string) : bool :=
  match o with
  | Some v => String.eqb v s
  | None => false
  end.

Definition is_reconciled (t : Transaction) : bool :=
  match t_status t with reconciled => true | _ => false end.

Definition is_matched (inv : Invoice) : bool :=
  match i_status inv with matched => true | _ => false end.

(** A matched invoice names an existing, reconciled transaction that links
    back to it. *)
Definition invoice_ok (txs : list Transaction) (inv : Invoice) : bool :=
  if is_matched inv then
    match i_matchedTransactionId inv with
    | Some tid =>
        existsb (fun t => String.eqb (t_id t) tid && is_reconciled t
                          && opt_is (t_matchedInvoiceId t) (i_id inv)) txs
    | None => false
    end
  else true.

(** A linked transaction names an existing, matched invoice that links
    back to it. *)
Definition transaction_ok (invs : list Invoice) (t : Transaction) : bool :=
  match t_matchedInvoiceId t with
  | Some iid =>
      existsb (fun inv => String.eqb (i_id inv) iid && is_matched inv
                          && opt_is (i_matchedTransactionId inv) (t_id t)) invs
  | None => true
  end.

Definition link_symmetry (st : AppState) : bool :=
  forallb (invoice_ok (transactions st)) (invoices st)
  && forallb (transaction_ok (invoices st)) (transactions st).

(** The conditions under which the records of a state can be told apart:
    identifiers are unique and not empty, and an invoice that names a
    transaction has status matched (invoices are created either unmatched
    without a link or matched with one, and are never edited). *)
Definition ids_ok (st : AppState) : Prop :=
  NoDup (List.map t_id (transactions st)) /\
  NoDup (List.map i_id (invoices st)) /\
  Forall (fun t => t_id t <> EmptyString) (transactions st) /\
  Forall (fun inv => i_id inv <> EmptyString) (invoices st) /\
  Forall (fun inv => i_matchedTransactionId inv <> None ->
                     i_status inv = matched) (invoices st).

Definition consistent (st : AppState) : Prop :=
  link_symmetry st = true /\ ids_ok st.

End Links.

(* ================================================================== *)
(** ** Reference instance of [new Date(s).getTime()] *)
(* ================================================================== *)

(** Dates in the canonical form [YYYY-MM-DD] are read as midnight UTC;
    anything else is an invalid date. *)
Module DateRef.
Import JsonRef.

Definition two_digits (a b : ascii) : option Z :=
  if is_digit a && is_digit b then Some (10 * digit_val a + digit_val b)%Z
  else None.

Definition days_from_civil (y m d : Z) : Z :=
  let y' := (if m <=? 2 then y - 1 else y)%Z in
  let era := (y' / 400)%Z in
  let yoe := (y' - era * 400)%Z in
  let mp := (if m <=? 2 then m + 9 else m - 3)%Z in
  let doy := ((153 * mp + 2) / 5 + d - 1)%Z in
  let doe := (yoe * 365 + yoe / 4 - yoe / 100 + doy)%Z in
  (era * 146097 + doe - 719468)%Z.

Definition iso_date_ms (s : string) : option Z :=
  match s with
  | String y1 (String y2 (String y3 (String y4 (String s1
      (String m1 (String m2 (String s2 (String d1 (String d2
        EmptyString))))))))) =>
      if Ascii.eqb s1 "-"%char && Ascii.eqb s2 "-"%char then
        match two_digits y1 y2, two_digits y3 y4,
              two_digits m1 m2, two_digits d1 d2 with
        | Some yh, Some yl, Some m, Some d =>
            if ((1 <=? m) && (m <=? 12) && (1 <=? d) && (d <=? 31))%Z
            then Some (days_from_civil (100 * yh + yl) m d * 86400000)%Z
            else None
        | _, _, _, _ => None
        end
      else None
  | _ => None
  end.

End DateRef.

(* ================================================================== *)
(** ** Concrete records used in the examples *)
(* ================================================================== *)

Module Samples.
Import Js JsonRef.

Definition scenario_txs : list Transaction :=
  [ mkTransaction "r1" "2024-05-01" "RENT" 12000 "p1" (cat RENTAL_INC_001)
      pending bank_upload None None;
    mkTransaction "e1" "2024-06-01" "PLUMBER" (-2000) "p1" (cat REPAIRS_101)
      pending bank_upload None None;
    mkTransaction "m1" "2024-07-01" "MORTGAGE" (-5000) "p1" (cat MORT_INT_701)
      pending bank_upload None None ].

Definition personal_tx : Transaction :=
  mkTransaction "x1" "2024-05-01" "SUPERMARKET" (-100) "p1" (cat PERSONAL_000)
    pending bank_upload None None.

Definition uncategorized_tx : Transaction :=
  mkTransaction "x2" "2024-05-02" "CARD PAYMENT" (-50) "p1" (cat UNCATEGORIZED)
    pending bank_upload None None.

(** A reply whose category code is not in the enumeration:
    [{"category": "BANANA_999", "confidence": 0.9}] inside a code fence. *)
Definition unknown_code_reply : string :=
  "```json" ++ String LF
    ("{" ++ quoted "category" ++ ": " ++ quoted "BANANA_999" ++ ", "
         ++ quoted "confidence" ++ ": 0.9}" ++ String LF "```").

(** A reply that holds no JSON at all. *)
Definition prose_reply : string := "I cannot classify this transaction.".

Definition row_rent : TransactionManager.RawRow :=
  TransactionManager.mkRow "2024-01-15" "RENT FROM TENANT" 1200.

Definition row_repair : TransactionManager.RawRow :=
  TransactionManager.mkRow "2024-01-15" "REPAIR BOILER" (-300).

Definition form_a : TransactionManager.ManualForm :=
  TransactionManager.mkForm "2024-03-01" "Cash for plumber" "-45.00" "p1"
    REPAIRS_101 None.

Definition form_b : TransactionManager.ManualForm :=
  TransactionManager.mkForm "2024-09-30" "Window cleaner" "-20" "p1"
    MISC_901 None.

(** A linked pair: transaction [t1] reconciled against invoice [i1]. *)
Definition linked_state : AppState :=
  {| transactions :=
       [ mkTransaction "t1" "2024-05-15" "SCREWFIX" (-4505 # 100) "p1"
           (cat REPAIRS_101) reconciled bank_upload (Some "i1") None ];
     invoices :=
       [ mkInvoice "i1" "2024-05-10" "Screwfix" 45 "Fittings" matched
           None (Some "t1") ] |}.

(** The matching scenario: one pending expense of 45.05. *)
Definition candidate (date : string) : Transaction :=
  mkTransaction "t1" date "SCREWFIX" (-4505 # 100) "p1" (cat REPAIRS_101)
    pending bank_upload None None.

Definition receipt : InvoiceManager.ExtractedData :=
  InvoiceManager.mkExtracted (Some "2024-05-10") (Some "Screwfix") (Some 45)
    (Some "Fittings").

End Samples.

(* ================================================================== *)
(** ** What the tax engine reads of a transaction *)
(* ================================================================== *)

Module EstimateInputs.

(** Two transactions that agree on the fields [estimate] reads: date,
    amount and category. *)
Definition same_money (a b : Transaction) : Prop :=
  t_date a = t_date b /\ t_amount a = t_amount b /\
  t_category a = t_category b.

End EstimateInputs.

(* ================================================================== *)
(** ** Dashboard: ownership split ([Dashboard.tsx], [ownershipSplit]) *)
(* ================================================================== *)

Module OwnershipSplit.
Import Dashboard.






End OwnershipSplit.

(* ================================================================== *)
(** ** Cloud synchronisation ([cloudStorageService.ts]) *)
(* ================================================================== *)

Module CloudStorage.
Import Js.

(** The records sent as invoices by [syncToCloud]: their status is the
    status of the transaction they are generated from. *)
Record SyncedInvoice : Type := mkSynced {
  s_id : string;
  s_date : string;
  s_vendor : string;
  s_amount : Q;
  s_description : JsValue;
  s_status : TxStatus;
  s_matchedTransactionId : string
}.

(** The filter of [generateInvoicesFromTransactions]. *)
Definition is_synced_expense (t : Transaction) : bool :=
  if Qlt_le_dec (t_amount t) 0 then
    if is_cat (t_category t) PERSONAL_000 then false
    else if is_cat (t_category t) UNCATEGORIZED then false
    else true
  else false.

Definition invoice_of_transaction (t : Transaction) : SyncedInvoice :=
  {| s_id := "inv-" ++ t_id t;
     s_date := t_date t;
     s_vendor := t_description t;
     s_amount := Qabs (t_amount t);
     s_description := or_else (t_category t) (JStr EmptyString);
     s_status := t_status t;
     s_matchedTransactionId := t_id t |}.

Definition generateInvoicesFromTransactions (txs : list Transaction)
  : list SyncedInvoice :=
  List.map invoice_of_transaction (List.filter is_synced_expense txs).

(** [/^\d{4}-\d{2}-\d{2}$/.test(s)] *)
Definition is_canonical_date (s : string) : bool :=
  match s with
  | String y1 (String y2 (String y3 (String y4 (String s1
      (String m1 (String m2 (String s2 (String d1 (String d2
        EmptyString))))))))) =>
      JsonRef.is_digit y1 && JsonRef.is_digit y2 && JsonRef.is_digit y3
      && JsonRef.is_digit y4 && Ascii.eqb s1 "-"%char
      && JsonRef.is_digit m1 && JsonRef.is_digit m2 && Ascii.eqb s2 "-"%char
      && JsonRef.is_digit d1 && JsonRef.is_digit d2
  | _ => false
  end.

(** [String(n)] for an integer. *)
Definition int_to_string (n : Z) : string :=
  if (n <? 0)%Z then "-" ++ Z_to_string (- n) else Z_to_string n.

(** [s.padStart(2, '0')] *)
Definition padStart2 (s : string) : string :=
  match String.length s with
  | O => "00"
  | S O => "0" ++ s
  | _ => s
  end.

Section Normalize.

(** The local calendar fields of [new Date(s)]: [getFullYear()],
    [getMonth()] (0 to 11) and [getDate()]; [None] for an invalid date. *)
Variable Date_local : string -> option (Z * Z * Z).

(** [normalizeDate]; the argument is [None] for [null] or [undefined]. *)
Definition normalizeDate (dateStr : option string) : string :=
  match dateStr with
  | None => EmptyString
  | Some s =>
      if String.eqb s EmptyString then EmptyString
      else if is_canonical_date s then s
      else
        match Date_local s with
        | None => s
        | Some (year, month, day) =>
            int_to_string year ++ "-"
            ++ padStart2 (int_to_string (month + 1)) ++ "-"
            ++ padStart2 (int_to_string day)
        end
  end.

End Normalize.

(** A calendar reader that knows one timestamp, for examples. *)
Definition sample_local (s : string) : option (Z * Z * Z) :=
  if String.eqb s "2024-05-15T10:30:00.000Z" then Some (2024, 4, 15)%Z
  else None.

End CloudStorage.

(* ================================================================== *)
(** ** Texts without code fences *)
(* ================================================================== *)

Module Scan.

(** No backtick in the string. *)
Fixpoint no_tick (s : string) : bool :=
  match s with
  | EmptyString => true
  | String c r => negb (Ascii.eqb c "`"%char) && no_tick r
  end.

End Scan.

(* ================================================================== *)
(** ** Local persistence ([storageService.ts]) *)
(* ================================================================== *)

(** The object store [transactions] is created with [keyPath: 'id']: it
    holds at most one record per identifier, [put] replaces the record
    stored under the same identifier, and [getAll] returns the records in
    the order of their keys. *)
Module StorageService.

(** [store.put(t)] *)
Definition put (t : Transaction) (store : gmap string Transaction)
  : gmap string Transaction :=
  <[ t_id t := t ]> store.

(** [saveTransactions]: [store.clear()], then
    [transactions.forEach(t => store.put(t))]. *)
Definition saveTransactions (txs : list Transaction)
  : gmap string Transaction :=
  fold_left (fun store t => put t store) txs ∅.

Fixpoint insert_by_key (x : string * Transaction)
    (l : list (string * Transaction)) : list (string * Transaction) :=
  match l with
  | [] => [x]
  | y :: l' =>
      if str_le (fst x) (fst y) then x :: y :: l'
      else y :: insert_by_key x l'
  end.

Definition sort_by_key (l : list (string * Transaction))
  : list (string * Transaction) :=
  List.fold_right insert_by_key [] l.

(** [loadTransactions]: [store.getAll()]. *)
Definition loadTransactions (store : gmap string Transaction)
  : list Transaction :=
  List.map snd (sort_by_key (map_to_list store)).

End StorageService.

(* ================================================================== *)
(** ** Dashboard: per-property and per-month figures ([Dashboard.tsx],
       [propertyStats], [chartData]) *)
(* ================================================================== *)

Module DashboardBreakdown.
Import Dashboard.

Definition filteredTransactions (transactions : list Transaction)
    (y : TaxYear) : list Transaction :=
  List.filter (fun t => isDateInTaxYear (t_date t) y) transactions.







Section Chart.

(** [new Date(s).getMonth()]: 0 to 11, [None] (NaN) for an invalid date. *)
Variable Date_getMonth : string -> option Z.



End Chart.

(** The sum of a column: [rows.reduce((a, r) => a + f(r), 0)]. *)
Definition total {A} (f : A -> Q) (rows : list A) : Q :=
  fold_left (fun a r => a + f r) rows 0.


End DashboardBreakdown.

(* ================================================================== *)
(** ** Reading the amounts of the sample forms *)
(* ================================================================== *)

Module FormSamples.

(** [parseFloat] on the amounts typed into the two sample forms. *)
Definition sample_parseFloat (s : string) : option Q :=
  if String.eqb s "-45.00" then Some (-45)
  else if String.eqb s "-20" then Some (-20)
  else None.

End FormSamples.

(* ================================================================== *)
(** ** Properties of the tax engine *)
(* ================================================================== *)

Module TaxFacts.
Import TaxEstimator Samples.

(** Case analysis on every [Math.min], [Math.max] and comparison of the
    goal, leaving linear arithmetic. *)
Ltac q_split :=
  repeat match goal with
  | |- context [Qmax ?a ?b] =>
      let m := fresh "m" in let E := fresh "E" in
      destruct (Q.max_spec a b) as [[? E] | [? E]];
      revert E; generalize (Qmax a b); intros m E
  | |- context [Qmin ?a ?b] =>
      let m := fresh "m" in let E := fresh "E" in
      destruct (Q.min_spec a b) as [[? E] | [? E]];
      revert E; generalize (Qmin a b); intros m E
  | |- context [Qlt_le_dec ?a ?b] => destruct (Qlt_le_dec a b)
  end.

Lemma allowance_cases total :
  (total <= 100000 /\ allowance_of total == 12570) \/
  (100000 < total /\ total <= 125140 /\
   allowance_of total == 12570 - (total - 100000) * (1 # 2)) \/
  (125140 <= total /\ allowance_of total == 0).
Proof.
  unfold allowance_of.
  change ((total - 100000) / 2) with ((total - 100000) * (1 # 2)).
  destruct (Qlt_le_dec 100000 total) as [H | H].
  - destruct (Q.max_spec 0 (12570 - (total - 100000) * (1 # 2)))
      as [[H1 E] | [H1 E]].
    + right; left. split; [assumption | split; [lra | assumption]].
    + right; right. split; [lra | assumption].
  - left. split; [assumption | reflexivity].
Qed.

Lemma allowance_nonneg total : 0 <= allowance_of total.
Proof.
  destruct (allowance_cases total) as [[_ E] | [[_ [? E]] | [_ E]]]; lra.
Qed.

Lemma allowance_le_base total : allowance_of total <= 12570.
Proof.
  destruct (allowance_cases total) as [[_ E] | [[? [? E]] | [_ E]]]; lra.
Qed.

(** Income less allowance never decreases: the taper removes half a unit of
    allowance per unit of income, so the slope stays positive. *)
Lemma net_of_allowance_mono x y :
  x <= y -> x - allowance_of x <= y - allowance_of y.
Proof.
  intros Hxy.
  destruct (allowance_cases x) as [[? Ex] | [[? [? Ex]] | [? Ex]]];
  destruct (allowance_cases y) as [[? Ey] | [[? [? Ey]] | [? Ey]]]; lra.
Qed.

Lemma taxableIncome_mono x y :
  x <= y -> taxableIncome_of x <= taxableIncome_of y.
Proof.
  intros Hxy. unfold taxableIncome_of.
  pose proof (net_of_allowance_mono x y Hxy).
  generalize dependent (allowance_of x). generalize dependent (allowance_of y).
  intros ay ax H. q_split; lra.
Qed.

Lemma taxableIncome_nonneg x : 0 <= taxableIncome_of x.
Proof. unfold taxableIncome_of. apply Q.le_max_l. Qed.

Lemma taxBeforeRelief_mono s t :
  s <= t -> taxBeforeRelief_of s <= taxBeforeRelief_of t.
Proof.
  intros Hst. unfold taxBeforeRelief_of, bands, basicBand, higherBand.
  q_split; lra.
Qed.

Lemma taxBeforeRelief_nonneg t : 0 <= t -> 0 <= taxBeforeRelief_of t.
Proof.
  intros Ht. unfold taxBeforeRelief_of, bands, basicBand, higherBand.
  q_split; lra.
Qed.

Lemma taxBeforeRelief_zero t : t == 0 -> taxBeforeRelief_of t == 0.
Proof.
  intros Ht. unfold taxBeforeRelief_of, bands, basicBand, higherBand.
  q_split; lra.
Qed.

Lemma fold_sum_nonneg (f : Transaction -> Q) xs :
  (forall t, 0 <= f t) ->
  forall acc, 0 <= acc -> 0 <= fold_left (fun a b => a + f b) xs acc.
Proof.
  intros Hf. induction xs as [| x xs IH]; intros acc Hacc; simpl.
  - assumption.
  - apply IH. specialize (Hf x). lra.
Qed.

Lemma sum_by_nonneg f xs : (forall t, 0 <= f t) -> 0 <= sum_by f xs.
Proof. intros Hf. apply fold_sum_nonneg; [assumption | lra]. Qed.

Lemma financeCosts_nonneg ys : 0 <= financeCosts_of ys.
Proof. apply sum_by_nonneg. intros t. apply Qabs_nonneg. Qed.

Lemma otherExpenses_nonneg ys : 0 <= otherExpenses_of ys.
Proof. apply sum_by_nonneg. intros t. apply Qabs_nonneg. Qed.

(** The estimate's fields in terms of the step functions. *)
Lemma estimate_fields txs y oi :
  let e := estimate txs y oi in
  let ys := yearTransactions txs y in
  rentalIncome e = rentalIncome_of ys /\
  otherExpenses e = otherExpenses_of ys /\
  financeCosts e = financeCosts_of ys /\
  taxableProfit e = Qmax 0 (rentalIncome_of ys - otherExpenses_of ys) /\
  totalIncome e = taxableProfit e + oi /\
  allowance e = allowance_of (totalIncome e) /\
  taxableIncome e = taxableIncome_of (totalIncome e) /\
  estimatedTaxBeforeRelief e = grossTax (totalIncome e) /\
  financeCostRelief e
    = relief_of (financeCosts e) (estimatedTaxBeforeRelief e) /\
  finalEstimatedTax e
    = Qmax 0 (estimatedTaxBeforeRelief e - financeCostRelief e).
Proof.
  unfold estimate, grossTax, taxBeforeRelief_of, taxableIncome_of, relief_of.
  destruct (bands _) as [[b h] a] eqn:Eb. simpl. rewrite Eb.
  repeat split; reflexivity.
Qed.

Lemma relief_bounds fc tbr :
  0 <= fc -> 0 <= tbr ->
  0 <= relief_of fc tbr /\ relief_of fc tbr <= tbr.
Proof. intros Hfc Ht. unfold relief_of. q_split; lra. Qed.

(* ------------------------------------------------------------------ *)
(** *** The claims about the tax engine *)

(** C8. Gross tax before relief is non-decreasing in total income: of two
    estimates (whatever their transactions, period and supplemental
    income), the one with the smaller total income has the smaller or equal
    banded tax, the allowance taper included. *)
Theorem gross_tax_monotone txs1 y1 o1 txs2 y2 o2 :
  totalIncome (estimate txs1 y1 o1) <= totalIncome (estimate txs2 y2 o2) ->
  estimatedTaxBeforeRelief (estimate txs1 y1 o1)
    <= estimatedTaxBeforeRelief (estimate txs2 y2 o2).
Proof.
  intros H.
  destruct (estimate_fields txs1 y1 o1) as (_ & _ & _ & _ & _ & _ & _ & E1 & _).
  destruct (estimate_fields txs2 y2 o2) as (_ & _ & _ & _ & _ & _ & _ & E2 & _).
  rewrite E1, E2. unfold grossTax.
  apply taxBeforeRelief_mono, taxableIncome_mono, H.
Qed.

Lemma gross_tax_monotone_witness :
  totalIncome (estimate [] TY2024 99000) <= totalIncome (estimate [] TY2024 120000)
  /\ estimatedTaxBeforeRelief (estimate [] TY2024 99000)
      <= estimatedTaxBeforeRelief (estimate [] TY2024 120000).
Proof.
  split.
  - vm_compute. discriminate.
  - apply gross_tax_monotone. vm_compute. discriminate.
Defined.

(** The same fact on the step functions, for any two total incomes. *)
Lemma grossTax_mono x y : x <= y -> grossTax x <= grossTax y.
Proof. intros H. apply taxBeforeRelief_mono, taxableIncome_mono, H. Qed.

(** C9. For every transaction set the relief is
    min(finance costs x 20%, gross tax before relief), it lies between 0 and
    the gross tax before relief, and the final tax is the gross tax less the
    relief and is never negative.  (The finance-cost total is a sum of
    absolute values, hence never negative.) *)
Theorem relief_and_final_tax_bounds txs y oi :
  let e := estimate txs y oi in
  0 <= financeCosts e /\
  financeCostRelief e
    == Qmin (financeCosts e * (20 # 100)) (estimatedTaxBeforeRelief e) /\
  0 <= financeCostRelief e /\
  financeCostRelief e <= estimatedTaxBeforeRelief e /\
  finalEstimatedTax e == estimatedTaxBeforeRelief e - financeCostRelief e /\
  0 <= finalEstimatedTax e.
Proof.
  intros e.
  destruct (estimate_fields txs y oi)
    as (_ & _ & Efc & _ & _ & _ & _ & Etbr & Erel & Efin).
  fold e in Efc, Etbr, Erel, Efin.
  assert (Hfc : 0 <= financeCosts e)
    by (rewrite Efc; apply financeCosts_nonneg).
  assert (Ht : 0 <= estimatedTaxBeforeRelief e)
    by (rewrite Etbr; apply taxBeforeRelief_nonneg, taxableIncome_nonneg).
  destruct (relief_bounds _ _ Hfc Ht) as [R0 R1]. rewrite <- Erel in R0, R1.
  split; [exact Hfc |]. split; [rewrite Erel; reflexivity |].
  split; [exact R0 |]. split; [exact R1 |].
  rewrite Efin. split.
  - rewrite Q.max_r; [reflexivity | lra].
  - apply Q.le_max_l.
Qed.

(** C5. Gross income 12,000, other expenses 2,000, finance costs 5,000 and
    no supplemental income give taxable profit 10,000, total income 10,000,
    allowance 12,570, net taxable income 0, gross tax 0, relief
    min(1000, 0) = 0 and final tax 0. *)
Theorem scenario_allowance_absorbs txs y :
  rentalIncome_of (yearTransactions txs y) == 12000 ->
  otherExpenses_of (yearTransactions txs y) == 2000 ->
  financeCosts_of (yearTransactions txs y) == 5000 ->
  let e := estimate txs y 0 in
  taxableProfit e == 10000 /\ totalIncome e == 10000 /\
  allowance e == 12570 /\ taxableIncome e == 0 /\
  estimatedTaxBeforeRelief e == 0 /\
  financeCosts e * (20 # 100) == 1000 /\
  financeCostRelief e == 0 /\ finalEstimatedTax e == 0.
Proof.
  intros Hri Hoe Hfc e.
  destruct (estimate_fields txs y 0)
    as (_ & _ & Efc & Etp & Etot & Eal & Eti & Etbr & Erel & Efin).
  fold e in Efc, Etp, Etot, Eal, Eti, Etbr, Erel, Efin.
  assert (Htp : taxableProfit e == 10000) by (rewrite Etp; q_split; lra).
  assert (Htot : totalIncome e == 10000) by (rewrite Etot; lra).
  assert (Hal : allowance e == 12570).
  { rewrite Eal. unfold allowance_of.
    destruct (Qlt_le_dec _ _); [lra | reflexivity]. }
  assert (Hti : taxableIncome e == 0).
  { rewrite Eti. unfold taxableIncome_of. rewrite <- Eal. q_split; lra. }
  assert (Htbr : estimatedTaxBeforeRelief e == 0).
  { rewrite Etbr. unfold grossTax. rewrite <- Eti.
    apply taxBeforeRelief_zero, Hti. }
  assert (Hfc' : financeCosts e * (20 # 100) == 1000) by (rewrite Efc; lra).
  assert (Hrel : financeCostRelief e == 0).
  { rewrite Erel. unfold relief_of. q_split; lra. }
  assert (Hfin : finalEstimatedTax e == 0) by (rewrite Efin; q_split; lra).
  repeat (split; [assumption |]). assumption.
Qed.

Lemma scenario_allowance_absorbs_witness :
  let ys := yearTransactions scenario_txs TY2024 in
  let e := estimate scenario_txs TY2024 0 in
  (rentalIncome_of ys == 12000 /\ otherExpenses_of ys == 2000 /\
   financeCosts_of ys == 5000) /\
  taxableProfit e == 10000 /\ totalIncome e == 10000 /\
  allowance e == 12570 /\ taxableIncome e == 0 /\
  estimatedTaxBeforeRelief e == 0 /\
  financeCosts e * (20 # 100) == 1000 /\
  financeCostRelief e == 0 /\ finalEstimatedTax e == 0.
Proof.
  split.
  - repeat split; vm_compute; reflexivity.
  - apply (scenario_allowance_absorbs scenario_txs TY2024);
      vm_compute; reflexivity.
Defined.

(* ------------------------------------------------------------------ *)
(** *** What the deductible-expense sum contains *)

Lemma fold_sum_shift (f : Transaction -> Q) xs :
  forall acc, fold_left (fun a b => a + f b) xs acc
              == acc + fold_left (fun a b => a + f b) xs 0.
Proof.
  induction xs as [| x xs IH]; intros acc; simpl.
  - lra.
  - rewrite (IH (acc + f x)), (IH (0 + f x)). lra.
Qed.

Lemma sum_by_cons f x xs : sum_by f (x :: xs) == f x + sum_by f xs.
Proof. unfold sum_by. simpl. rewrite fold_sum_shift. lra. Qed.

(** The engine's filter keeps a negative transaction whatever its category,
    the finance-cost category apart: personal and uncategorized spending is
    summed with the deductible expenses. *)
Lemma is_other_expense_spec t :
  is_other_expense t = true <->
  t_amount t < 0 /\ is_cat (t_category t) MORT_INT_701 = false.
Proof.
  unfold is_other_expense. destruct (Qlt_le_dec (t_amount t) 0) as [H | H];
    destruct (is_cat _ _); simpl; split;
    try (intros [? ?]); try intros ?; try split;
    solve [assumption | reflexivity | discriminate | lra].
Qed.

Lemma otherExpenses_cons t ys :
  otherExpenses_of (t :: ys)
  == (if is_other_expense t then Qabs (t_amount t) else 0)
     + otherExpenses_of ys.
Proof.
  unfold otherExpenses_of. simpl. destruct (is_other_expense t).
  - apply sum_by_cons.
  - lra.
Qed.

Lemma is_cat_exclusive v c1 c2 :
  is_cat v c1 = true -> c1 <> c2 -> is_cat v c2 = false.
Proof.
  destruct v; simpl; try discriminate.
  intros H Hne. apply String.eqb_eq in H. subst s.
  destruct c1, c2; try reflexivity; contradiction.
Qed.

(** Any expense of the period that is tagged personal or uncategorized is
    counted in full by the engine. *)
Lemma personal_or_uncategorized_is_summed t y oi :
  isDateInTaxYear (t_date t) y = true -> t_amount t < 0 ->
  is_cat (t_category t) PERSONAL_000 = true \/
  is_cat (t_category t) UNCATEGORIZED = true ->
  otherExpenses (estimate [t] y oi) == - t_amount t.
Proof.
  intros Hy Hneg Hcat.
  destruct (estimate_fields [t] y oi) as (_ & E & _). rewrite E.
  unfold yearTransactions. simpl. rewrite Hy.
  rewrite otherExpenses_cons.
  assert (Hoe : is_other_expense t = true).
  { apply is_other_expense_spec. split; [exact Hneg |].
    destruct Hcat as [H | H];
      apply (is_cat_exclusive _ _ _ H); discriminate. }
  rewrite Hoe. unfold otherExpenses_of, sum_by. simpl.
  rewrite Qabs_neg; lra.
Qed.

(** C1 (the code departs from the claim).  A period that holds only one
    personal expense of 100 and one uncategorized expense of 50 has a
    deductible-expense sum of 150 in the tax engine, where the claim requires
    0: the engine's filter excludes the finance-cost category only.  The
    dashboard, which has its own filter for deductible expenses, leaves the
    personal expense out; the receipt checklist leaves both out. *)
Theorem other_expenses_include_personal_and_uncategorized :
  otherExpenses (estimate [personal_tx; uncategorized_tx] TY2024 0) == 150 /\
  otherExpenses (estimate [personal_tx] TY2024 0) == 100 /\
  otherExpenses (estimate [uncategorized_tx] TY2024 0) == 50 /\
  Dashboard.expenses (Dashboard.stats [personal_tx] TY2024) == 0 /\
  InvoiceManager.expenseTransactions DateRef.iso_date_ms
    [personal_tx; uncategorized_tx] TY2024 = [].
Proof. repeat split; vm_compute; reflexivity. Qed.

End TaxFacts.

(* ================================================================== *)
(** ** Properties of the categorization orchestrator *)
(* ================================================================== *)

Module GeminiFacts.
Import Js JsonRef GeminiService Samples.

Lemma get_prop_object fields k :
  get_prop (JObj fields) k
  = Some (match lookup_field k fields with Some w => w | None => JUndefined end).
Proof. reflexivity. Qed.

(** When the classifier call itself fails, the [catch] branch answers. *)
Lemma categorize_call_failed JSON_parse classifier d a ps :
  classifier d a ps = None ->
  categorizeTransaction JSON_parse classifier d a ps = on_error.
Proof. intros H. unfold categorizeTransaction. rewrite H. reflexivity. Qed.

(** A payload that parses to [null] raises on the first property access and
    ends in the [catch] branch as well. *)
Lemma categorize_null_payload JSON_parse classifier d a ps text :
  classifier d a ps = Some text ->
  JSON_parse (cleanJson text) = Some JNull ->
  categorizeTransaction JSON_parse classifier d a ps = on_error.
Proof.
  intros H Hp. unfold categorizeTransaction, robustJsonParse.
  rewrite H, Hp. reflexivity.
Qed.

(** C6, as the code has it.  Whatever [JSON.parse] and the classifier do:
    when the classifier call fails the result is uncategorized with
    confidence 0; when its reply holds no JSON the result is uncategorized
    with confidence 0.5; and when the reply holds an object the category of
    the result is the returned value whenever that value is truthy, member of
    the enumeration or not, and uncategorized only when the field is missing
    or falsy. *)
Theorem categorize_without_membership_check JSON_parse classifier d a ps :
  let r := categorizeTransaction JSON_parse classifier d a ps in
  (classifier d a ps = None ->
   r = {| c_category := cat UNCATEGORIZED; c_propertyId := JUndefined;
          c_confidence := JNum 0; c_reasoning := JUndefined |}) /\
  (forall text,
     classifier d a ps = Some text ->
     JSON_parse (cleanJson text) = None ->
     r = {| c_category := cat UNCATEGORIZED; c_propertyId := JUndefined;
            c_confidence := JNum (5 # 10); c_reasoning := JUndefined |}) /\
  (forall text fields,
     classifier d a ps = Some text ->
     JSON_parse (cleanJson text) = Some (JObj fields) ->
     c_category r
     = match lookup_field "category" fields with
       | Some c => if truthy c then c else cat UNCATEGORIZED
       | None => cat UNCATEGORIZED
       end).
Proof.
  intros r. subst r. split; [| split].
  - apply categorize_call_failed.
  - intros text H Hp. unfold categorizeTransaction, robustJsonParse.
    rewrite H, Hp. reflexivity.
  - intros text fields H Hp. unfold categorizeTransaction, robustJsonParse.
    rewrite H, Hp. rewrite !get_prop_object. simpl.
    unfold or_else. destruct (lookup_field "category" fields) as [c |];
      reflexivity.
Qed.

Lemma categorize_without_membership_check_witness :
  let classifier := fun (_ : string) (_ : Q) (_ : list Property) =>
                      Some unknown_code_reply in
  classifier "TESCO STORES" (-20) [] = Some unknown_code_reply /\
  json_parse (cleanJson unknown_code_reply)
  = Some (JObj [("category", JStr "BANANA_999");
                ("confidence", JNum (9 # 10))]) /\
  c_category (categorizeTransaction json_parse classifier "TESCO STORES" (-20) [])
  = JStr "BANANA_999".
Proof.
  split; [reflexivity |]. split; [reflexivity |].
  exact (proj2 (proj2 (categorize_without_membership_check json_parse
                         (fun _ _ _ => Some unknown_code_reply)
                         "TESCO STORES" (-20) []))
               unknown_code_reply
               [("category", JStr "BANANA_999"); ("confidence", JNum (9 # 10))]
               eq_refl eq_refl).
Defined.

(** C6 as claimed fails twice.  A reply carrying the code [BANANA_999],
    which is not in the enumeration, is categorized [BANANA_999], not
    uncategorized; and a reply without any JSON gets confidence 0.5, not 0. *)
Lemma categorize_accepts_unknown_code :
  let r1 := categorizeTransaction json_parse
              (fun _ _ _ => Some unknown_code_reply) "TESCO STORES" (-20) [] in
  let r2 := categorizeTransaction json_parse
              (fun _ _ _ => Some prose_reply) "TESCO STORES" (-20) [] in
  (c_category r1 = JStr "BANANA_999" /\
   known_category (c_category r1) = false /\
   c_category r1 <> cat UNCATEGORIZED) /\
  (json_parse (cleanJson prose_reply) = None /\
   c_category r2 = cat UNCATEGORIZED /\
   c_confidence r2 = JNum (5 # 10) /\
   c_confidence r2 <> JNum 0).
Proof.
  vm_compute. repeat split; try reflexivity; discriminate.
Qed.

End GeminiFacts.

(* ================================================================== *)
(** ** Properties of import, deduplication and manual entry *)
(* ================================================================== *)

Module TransactionFacts.
Import Js Encoding GeminiService TransactionManager Samples.

(** *** Identities *)

(** Sixteen base64 characters encode twelve bytes: the identity is the
    encoding of the first twelve bytes of the interpolated string and of
    nothing else. *)
Lemma slice16_btoa_12 (c1 c2 c3 c4 c5 c6 c7 c8 c9 c10 c11 c12 : ascii)
    (s : string) :
  slice16 (btoa (String c1 (String c2 (String c3 (String c4 (String c5
            (String c6 (String c7 (String c8 (String c9 (String c10
            (String c11 (String c12 s)))))))))))))
  = btoa (String c1 (String c2 (String c3 (String c4 (String c5
           (String c6 (String c7 (String c8 (String c9 (String c10
           (String c11 (String c12 EmptyString)))))))))))).
Proof.
  unfold slice16. destruct s as [| x [| y [| z s]]]; reflexivity.
Qed.

Lemma slice16_btoa_prefix (p s : string) :
  String.length p = 12%nat -> slice16 (btoa (p ++ s)) = btoa p.
Proof.
  intros H.
  do 12 (destruct p as [| ? p]; [discriminate H |]).
  destruct p; [| discriminate H]. clear H.
  cbv [String.append]. apply slice16_btoa_12.
Qed.

(** Two imported rows with the same ten-character date whose descriptions
    start with the same character have the same identity, whatever the rest
    of the description and the amount. *)
Lemma import_id_ignores_tail Number_toString date c desc1 desc2 a1 a2 :
  String.length date = 10%nat ->
  deterministicId Number_toString (mkRow date (String c desc1) a1)
  = deterministicId Number_toString (mkRow date (String c desc2) a2).
Proof.
  intros H. unfold deterministicId. cbn [r_date r_description r_amount].
  do 10 (destruct date as [| ? date]; [discriminate H |]).
  destruct date; [| discriminate H]. clear H.
  cbv [String.append]. rewrite !slice16_btoa_12. reflexivity.
Qed.

(** Two manual entries whose dates share their first five characters (the
    year and its dash) have the same identity: description, amount and
    timestamp lie beyond the twelfth byte. *)
Lemma manual_id_ignores_timestamp Number_toString y d1 d2 desc1 desc2
    a1 a2 now1 now2 :
  String.length y = 5%nat ->
  manualId Number_toString (y ++ d1) desc1 a1 now1
  = manualId Number_toString (y ++ d2) desc2 a2 now2.
Proof.
  intros H. unfold manualId.
  do 5 (destruct y as [| ? y]; [discriminate H |]).
  destruct y; [| discriminate H]. clear H.
  cbv [String.append]. rewrite !slice16_btoa_12. reflexivity.
Qed.

(** The one part of the scheme that does hold: a manual identity starts
    with the encoding of the letter m, an import identity with that of the
    first character of the date, so the two differ whenever the date of the
    imported row starts with a digit. *)
Lemma btoa_head c s :
  exists r, btoa (String c s) = String (b64_char (N_of_ascii c / 4)) r.
Proof. destruct s as [| b [| d s]]; eexists; reflexivity. Qed.

(** A manual identity is never the identity of an imported row whose date
    starts with a digit. *)
Lemma manual_id_differs_from_import_id Number_toString date desc amount now
    d rest desc' amount' :
  JsonRef.is_digit d = true ->
  manualId Number_toString date desc amount now
  <> deterministicId Number_toString (mkRow (String d rest) desc' amount').
Proof.
  intros Hd. unfold manualId, deterministicId.
  cbn [r_date r_description r_amount]. cbv [String.append].
  match goal with
  | |- slice16 (btoa (String ?c ?s)) <> _ =>
      destruct (btoa_head c s) as (r1 & ->)
  end.
  match goal with
  | |- _ <> slice16 (btoa (String ?c ?s)) =>
      destruct (btoa_head c s) as (r2 & ->)
  end.
  unfold slice16. cbn [substring]. intros [= E _]. revert E.
  destruct d as [[] [] [] [] [] [] [] []]; try discriminate Hd;
    vm_compute; discriminate.
Qed.

(** C3 (the code departs from the claim).  Two different rows of one
    statement, a rent receipt and a boiler repair of the same day, get the
    same identity; so do two manual entries of the same year made at
    different times. *)
Theorem identities_collide :
  row_rent <> row_repair /\
  deterministicId num_to_string row_rent
  = deterministicId num_to_string row_repair /\
  deterministicId num_to_string row_rent = "MjAyNC0wMS0xNS1S" /\
  manualId num_to_string "2024-03-01" "Cash for plumber" (-45) 1709300000000
  = manualId num_to_string "2024-09-30" "Window cleaner" (-20) 1727700000000 /\
  manualId num_to_string "2024-03-01" "Cash for plumber" (-45) 1709300000000
  = "bWFudWFsLTIwMjQt".
Proof.
  split; [discriminate |]. repeat split; vm_compute; reflexivity.
Qed.

(** *** Import *)


Section Batch.

Variable Number_toString : Q -> string.
Variable categorize : string -> Q -> list Property -> Categorization.

Local Abbreviation importRow := (importRow Number_toString categorize).
Local Abbreviation processImportedData :=
  (processImportedData Number_toString categorize).
Local Abbreviation deterministicId := (deterministicId Number_toString).

Lemma importRow_existing ids props item :
  deterministicId item ∈ ids -> importRow ids props item = None.
Proof.
  intros H. unfold TransactionManager.importRow.
  destruct (decide _); [reflexivity | contradiction].
Qed.

Lemma importRow_new ids props item :
  deterministicId item ∉ ids ->
  exists t, importRow ids props item = Some t /\
            t_id t = deterministicId item /\
            t_date t = r_date item /\
            t_description t = r_description item /\
            t_amount t = r_amount item /\
            t_status t = pending /\ t_source t = bank_upload.
Proof.
  intros H. unfold TransactionManager.importRow.
  destruct (decide _); [contradiction |].
  eexists. split; [reflexivity |]. simpl. repeat split.
Qed.


(** The stored transactions are kept as they are, in front. *)
Lemma import_keeps_existing txs props items :
  exists added,
    o_transactions (processImportedData txs props items)
    = (txs ++ added)%list /\
    Forall (fun t => (t_id t ∉ existingIds txs) /\
                     (t_status t = pending /\ t_source t = bank_upload))
           added.
Proof.
  eexists. split; [reflexivity |].
  induction items as [| item items IH]; simpl; [constructor |].
  destruct (decide (deterministicId item ∈ existingIds txs)) as [Hin | Hout].
  - rewrite (importRow_existing _ _ _ Hin). exact IH.
  - destruct (importRow_new _ props _ Hout) as (t & E & Hid & _ & _ & _ & Hs & Hsrc).
    rewrite E. simpl. constructor; [| exact IH].
    rewrite Hid. auto.
Qed.




End Batch.





(** The existing identities are read once, before the batch: a row that
    occurs twice in one batch is stored twice. *)
Lemma import_same_batch_duplicates :
  let o := processImportedData num_to_string (fun _ _ _ => on_error)
             [] [] [row_rent; row_rent] in
  o_addedCount o = 2%nat /\ o_skippedCount o = O /\
  stored_with_id (deterministicId num_to_string row_rent) (o_transactions o)
  = 2%nat.
Proof. vm_compute. repeat split; reflexivity. Qed.

(** *** Manual entry *)

(** C10. A transaction added by the manual-entry operation is stored with
    status reconciled and source manual (a valid form adds exactly one such
    transaction at the end, an invalid one adds nothing), whereas every
    transaction added by an import has status pending and source
    bank_upload. *)
Theorem manual_entries_are_born_reconciled
    Number_toString parseFloat categorize form now txs props items :
  (forall amount,
     parseFloat (manualAmount form) = Some amount ->
     manualDesc form <> EmptyString ->
     exists t,
       handleManualAdd Number_toString parseFloat form now txs
       = (txs ++ [t])%list /\
       t_status t = reconciled /\ t_source t = manual /\
       t_status t <> pending) /\
  (exists added,
     handleManualAdd Number_toString parseFloat form now txs
     = (txs ++ added)%list /\
     Forall (fun t => t_status t = reconciled /\ t_source t = manual) added) /\
  (exists added,
     o_transactions
       (processImportedData Number_toString categorize txs props items)
     = (txs ++ added)%list /\
     Forall (fun t => t_status t = pending /\ t_source t = bank_upload) added).
Proof.
  split; [| split].
  - intros amount Hpf Hdesc. unfold handleManualAdd. rewrite Hpf.
    destruct (String.eqb_spec (manualDesc form) EmptyString) as [E | _];
      [contradiction |].
    eexists. split; [reflexivity |]. simpl.
    repeat split; try reflexivity. discriminate.
  - unfold handleManualAdd.
    destruct (parseFloat (manualAmount form)) as [amount |].
    + destruct (String.eqb (manualDesc form) EmptyString).
      * exists []. rewrite app_nil_r. split; [reflexivity | constructor].
      * eexists. split; [reflexivity |].
        constructor; [| constructor]. simpl. split; reflexivity.
    + exists []. rewrite app_nil_r. split; [reflexivity | constructor].
  - destruct (import_keeps_existing Number_toString categorize txs props items)
      as (added & E & HF).
    exists added. split; [exact E |].
    eapply Forall_impl; [| exact HF]. simpl. intros t (_ & H). exact H.
Qed.

Lemma manual_entries_are_born_reconciled_witness :
  exists t,
    handleManualAdd num_to_string (fun _ => Some (-45)) form_a 1709300000000 []
    = [t] /\
    t_status t = reconciled /\ t_source t = manual /\ t_status t <> pending.
Proof.
  destruct (manual_entries_are_born_reconciled num_to_string
              (fun _ => Some (-45)) (fun _ _ _ => on_error)
              form_a 1709300000000%Z [] [] []) as (H & _ & _).
  destruct (H (-45) eq_refl) as (t & E & Hs).
  - discriminate.
  - exists t. split; [exact E | exact Hs].
Defined.

End TransactionFacts.

(* ================================================================== *)
(** ** Properties of invoice matching *)
(* ================================================================== *)

Module InvoiceFacts.
Import InvoiceManager DateRef Samples.


Section Matching.

Variable Date_getTime : string -> option Z.

Local Abbreviation is_match := (is_match Date_getTime).
Local Abbreviation expenseTransactions := (expenseTransactions Date_getTime).
Local Abbreviation find_match := (find_match Date_getTime).


Lemma in_insert_sorted x t l :
  In t (insert_sorted Date_getTime x l) <-> t = x \/ In t l.
Proof.
  induction l as [| y l IH]; simpl.
  - intuition.
  - destruct (_ <=? _)%Z; simpl; [intuition |].
    rewrite IH. intuition.
Qed.

Lemma in_sort_desc t l : In t (sort_desc Date_getTime l) <-> In t l.
Proof.
  induction l as [| x l IH]; simpl; [tauto |].
  rewrite in_insert_sorted, IH. intuition.
Qed.

(** The candidates searched: the expenses of the period, personal and
    uncategorized ones left out. *)
Lemma in_expenseTransactions txs y t :
  In t (expenseTransactions txs y) <->
  In t txs /\ is_checklist_expense y t = true.
Proof.
  unfold InvoiceManager.expenseTransactions.
  rewrite in_sort_desc, List.filter_In. reflexivity.
Qed.

Lemma is_checklist_expense_spec y t :
  is_checklist_expense y t = true <->
  isDateInTaxYear (t_date t) y = true /\ t_amount t < 0 /\
  is_cat (t_category t) PERSONAL_000 = false /\
  is_cat (t_category t) UNCATEGORIZED = false.
Proof.
  unfold is_checklist_expense.
  rewrite !Bool.andb_true_iff, !Bool.negb_true_iff.
  destruct (Qlt_le_dec (t_amount t) 0) as [Hlt | Hge].
  - tauto.
  - split.
    + intros [[[_ H] _] _]. discriminate H.
    + intros (_ & Hlt & _). exfalso.
      apply (Qlt_irrefl 0). eapply Qle_lt_trans; eassumption.
Qed.

(** [find] returns the first element that passes. *)
Lemma find_first {A} (f : A -> bool) l x :
  List.find f l = Some x ->
  exists l1 l2, l = (l1 ++ x :: l2)%list /\ f x = true /\
                forall y, In y l1 -> f y = false.
Proof.
  induction l as [| a l IH]; simpl; [discriminate |].
  destruct (f a) eqn:Fa.
  - intros [= ->]. exists [], l. simpl. repeat split; [exact Fa | tauto].
  - intros H. destruct (IH H) as (l1 & l2 & -> & Fx & Hl1).
    exists (a :: l1), l2. simpl. repeat split; [exact Fx |].
    intros y [<- | Hy]; [exact Fa | apply Hl1, Hy].
Qed.


End Matching.

(** *** The order in which candidates are tried *)

Section Order.

Variable Date_getTime : string -> option Z.

Local Abbreviation dated := (dated Date_getTime).
Local Abbreviation time_of := (time_of Date_getTime).
Local Abbreviation recent_first := (recent_first Date_getTime).

Lemma byDateDesc_dated a b :
  dated a -> dated b ->
  byDateDesc Date_getTime a b = (time_of b - time_of a)%Z.
Proof.
  unfold dated, byDateDesc, time_of. intros Ha Hb.
  destruct (Date_getTime (t_date b)); [| contradiction].
  destruct (Date_getTime (t_date a)); [| contradiction].
  reflexivity.
Qed.

Lemma forall_insert_sorted (P : Transaction -> Prop) x l :
  P x -> Forall P l -> Forall P (insert_sorted Date_getTime x l).
Proof.
  intros Hx Hl. rewrite Forall_forall in *. intros t Hin.
  apply in_insert_sorted in Hin. destruct Hin as [-> | Hin]; auto.
Qed.

Lemma insert_sorted_recent_first x l :
  dated x -> Forall dated l -> recent_first l ->
  recent_first (insert_sorted Date_getTime x l).
Proof.
  intros Hx Hl Hs. induction Hs as [| y l Hs IH Hy]; simpl.
  - constructor; constructor.
  - apply Forall_cons_iff in Hl. destruct Hl as [Hdy Hl].
    rewrite (byDateDesc_dated x y Hx Hdy).
    destruct (Z.leb_spec (time_of y - time_of x) 0) as [Hle | Hgt].
    + constructor; [constructor; assumption |].
      constructor; [lia |].
      eapply Forall_impl; [| exact Hy]. simpl. intros t Ht. lia.
    + constructor; [apply IH, Hl |].
      apply forall_insert_sorted; [lia | exact Hy].
Qed.

Lemma sort_desc_dated l :
  Forall dated l -> Forall dated (sort_desc Date_getTime l).
Proof.
  intros H. rewrite Forall_forall in *. intros t Hin.
  apply in_sort_desc in Hin. auto.
Qed.

Lemma sort_desc_recent_first l :
  Forall dated l -> recent_first (sort_desc Date_getTime l).
Proof.
  induction l as [| x l IH]; simpl; intros H.
  - constructor.
  - apply Forall_cons_iff in H. destruct H as [Hx Hl].
    apply insert_sorted_recent_first;
      [exact Hx | apply sort_desc_dated, Hl | apply IH, Hl].
Qed.

Lemma recent_first_tail l1 m l2 :
  recent_first (l1 ++ m :: l2) ->
  Forall (fun t => (time_of t <= time_of m)%Z) l2.
Proof.
  induction l1 as [| a l1 IH]; simpl; intros H.
  - apply StronglySorted_inv in H. apply H.
  - apply StronglySorted_inv in H. apply IH, H.
Qed.

Lemma Forall_filter_dated (p : Transaction -> bool) l :
  Forall dated l -> Forall dated (List.filter p l).
Proof.
  rewrite !Forall_forall. intros H x Hx. apply List.filter_In in Hx.
  apply H, Hx.
Qed.

(** When every date is valid, the candidates are tried most recent first:
    the match is the most recent accepted expense of the period. *)
Lemma find_match_most_recent txs y inv m :
  Forall dated txs ->
  find_match Date_getTime txs y inv = Some m ->
  forall t, In t txs -> is_checklist_expense y t = true ->
            is_match Date_getTime inv t = true ->
            (time_of t <= time_of m)%Z.
Proof.
  intros Hd Hf t Hin Hexp Hacc.
  destruct (find_first _ _ _ Hf) as (l1 & l2 & E & _ & Hl1).
  assert (Hs : recent_first (expenseTransactions Date_getTime txs y)).
  { apply sort_desc_recent_first. apply Forall_filter_dated, Hd. }
  assert (Ht : In t (expenseTransactions Date_getTime txs y))
    by (apply in_expenseTransactions; auto).
  rewrite E in Hs, Ht. apply List.in_app_or in Ht.
  destruct Ht as [Ht | [<- | Ht]].
  - rewrite (Hl1 _ Ht) in Hacc. discriminate.
  - lia.
  - pose proof (recent_first_tail _ _ _ Hs) as Htail.
    rewrite Forall_forall in Htail. apply Htail, Ht.
Qed.

End Order.



End InvoiceFacts.

(* ================================================================== *)
(** ** Link symmetry under the mutations *)
(* ================================================================== *)

Module LinkFacts.
Import InvoiceManager TransactionManager Links DateRef Samples.

(** *** Which mutations keep the links symmetric *)

Lemma opt_is_spec o s : opt_is o s = true <-> o = Some s.
Proof.
  destruct o as [v |]; simpl.
  - destruct (String.eqb_spec v s) as [-> | Hne].
    + tauto.
    + split; [discriminate | intros [= ->]; contradiction].
  - split; discriminate.
Qed.

Lemma is_reconciled_spec t : is_reconciled t = true <-> t_status t = reconciled.
Proof. unfold is_reconciled. destruct (t_status t); split; congruence. Qed.

Lemma is_matched_spec inv : is_matched inv = true <-> i_status inv = matched.
Proof. unfold is_matched. destruct (i_status inv); split; congruence. Qed.

Lemma invoice_ok_spec txs inv :
  invoice_ok txs inv = true <->
  (i_status inv = matched ->
   exists t, In t txs /\ i_matchedTransactionId inv = Some (t_id t) /\
             t_status t = reconciled /\
             t_matchedInvoiceId t = Some (i_id inv)).
Proof.
  unfold invoice_ok. destruct (is_matched inv) eqn:Hm.
  - apply is_matched_spec in Hm.
    destruct (i_matchedTransactionId inv) as [tid |].
    + rewrite List.existsb_exists. split.
      * intros (t & Hin & H) _.
        rewrite !Bool.andb_true_iff in H. destruct H as [[H1 H2] H3].
        apply String.eqb_eq in H1. apply is_reconciled_spec in H2.
        apply opt_is_spec in H3. exists t. subst tid. auto.
      * intros H. destruct (H Hm) as (t & Hin & [= ->] & Hs & Hl).
        exists t. split; [exact Hin |].
        rewrite !Bool.andb_true_iff. repeat split.
        -- apply String.eqb_refl.
        -- apply is_reconciled_spec, Hs.
        -- apply opt_is_spec, Hl.
    + split; [discriminate |]. intros H.
      destruct (H Hm) as (t & _ & Habs & _). discriminate.
  - split; [| reflexivity]. intros _ Hs.
    apply is_matched_spec in Hs. congruence.
Qed.

Lemma transaction_ok_spec invs t :
  transaction_ok invs t = true <->
  (forall iid, t_matchedInvoiceId t = Some iid ->
   exists inv, In inv invs /\ i_id inv = iid /\ i_status inv = matched /\
               i_matchedTransactionId inv = Some (t_id t)).
Proof.
  unfold transaction_ok. destruct (t_matchedInvoiceId t) as [iid |].
  - rewrite List.existsb_exists. split.
    + intros (inv & Hin & H) iid' [= <-].
      rewrite !Bool.andb_true_iff in H. destruct H as [[H1 H2] H3].
      apply String.eqb_eq in H1. apply is_matched_spec in H2.
      apply opt_is_spec in H3. exists inv. auto.
    + intros H. destruct (H iid eq_refl) as (inv & Hin & Hid & Hs & Hl).
      exists inv. split; [exact Hin |].
      rewrite !Bool.andb_true_iff. repeat split.
      * apply String.eqb_eq, Hid.
      * apply is_matched_spec, Hs.
      * apply opt_is_spec, Hl.
  - split; [intros _ iid Habs; discriminate | reflexivity].
Qed.

Lemma link_symmetry_spec st :
  link_symmetry st = true <->
  (forall inv, In inv (invoices st) ->
               invoice_ok (transactions st) inv = true) /\
  (forall t, In t (transactions st) ->
             transaction_ok (invoices st) t = true).
Proof.
  unfold link_symmetry.
  rewrite Bool.andb_true_iff, !List.forallb_forall. reflexivity.
Qed.

Lemma NoDup_map_inj {A B} (f : A -> B) (l : list A) a b :
  NoDup (List.map f l) -> In a l -> In b l -> f a = f b -> a = b.
Proof.
  induction l as [| x l IH]; simpl; intros Hnd Ha Hb E; [contradiction |].
  apply NoDup_cons_iff in Hnd. destruct Hnd as [Hx Hnd].
  destruct Ha as [-> | Ha], Hb as [-> | Hb].
  - reflexivity.
  - exfalso. apply Hx. rewrite E. apply List.in_map, Hb.
  - exfalso. apply Hx. rewrite <- E. apply List.in_map, Ha.
  - apply IH; assumption.
Qed.

Lemma NoDup_map_filter {A B} (f : A -> B) (p : A -> bool) (l : list A) :
  NoDup (List.map f l) -> NoDup (List.map f (List.filter p l)).
Proof.
  induction l as [| x l IH]; simpl; intros Hnd; [constructor |].
  apply NoDup_cons_iff in Hnd. destruct Hnd as [Hx Hnd].
  destruct (p x); simpl; [| apply IH, Hnd].
  apply NoDup_cons_iff. split; [| apply IH, Hnd].
  intros Hin. apply Hx. apply List.in_map_iff in Hin.
  destruct Hin as (y & E & Hy). apply List.filter_In in Hy.
  rewrite <- E. apply List.in_map, Hy.
Qed.

Lemma relink_ids tid link status txs :
  List.map t_id (relink tid link status txs) = List.map t_id txs.
Proof.
  unfold relink. rewrite List.map_map. apply List.map_ext.
  intros t. destruct (String.eqb (t_id t) tid); reflexivity.
Qed.

Lemma in_relink tid link status txs t' :
  In t' (relink tid link status txs) <->
  exists t, In t txs /\
            t' = if String.eqb (t_id t) tid
                 then with_link t link status else t.
Proof.
  unfold relink. rewrite List.in_map_iff. split.
  - intros (t & E & Hin). exists t. auto.
  - intros (t & Hin & E). exists t. auto.
Qed.

Lemma relink_nonempty tid link status txs :
  Forall (fun t => t_id t <> EmptyString) txs ->
  Forall (fun t => t_id t <> EmptyString) (relink tid link status txs).
Proof.
  rewrite !Forall_forall. intros H t' Hin.
  apply in_relink in Hin. destruct Hin as (t & Hin & ->).
  specialize (H t Hin). destruct (String.eqb (t_id t) tid); exact H.
Qed.

Lemma Forall_filter_keep {A} (P : A -> Prop) (p : A -> bool) l :
  Forall P l -> Forall P (List.filter p l).
Proof.
  rewrite !Forall_forall. intros H x Hx. apply List.filter_In in Hx.
  apply H, Hx.
Qed.

(** Deleting an invoice keeps a consistent state consistent: the link of
    its transaction is cleared together with it. *)
Lemma deleteInvoice_keeps_consistency confirmed id st :
  consistent st -> consistent (deleteInvoice confirmed id st).
Proof.
  intros Hc. destruct confirmed; [| exact Hc].
  destruct Hc as [Hsym (Hnt & Hni & Het & Hei & HL)].
  apply link_symmetry_spec in Hsym. destruct Hsym as [Hinv Htx].
  unfold deleteInvoice. cbn [negb].
  set (keep := fun inv : Invoice => negb (String.eqb (i_id inv) id)).
  assert (Hkeep : forall inv, In inv (List.filter keep (invoices st)) <->
                              In inv (invoices st) /\ i_id inv <> id).
  { intros inv. rewrite List.filter_In. unfold keep.
    rewrite Bool.negb_true_iff, String.eqb_neq. reflexivity. }
  destruct (List.find _ (invoices st)) as [inv0 |] eqn:Hf.
  - apply List.find_some in Hf. destruct Hf as [Hin0 Hid0].
    apply String.eqb_eq in Hid0.
    assert (Hsame : forall inv, In inv (invoices st) -> i_id inv = id ->
                                inv = inv0).
    { intros inv Hin E.
      apply (NoDup_map_inj i_id (invoices st)); congruence. }
    destruct (i_matchedTransactionId inv0) as [tid |] eqn:Hl.
    + assert (Hm0 : i_status inv0 = matched).
      { rewrite Forall_forall in HL. apply HL; [exact Hin0 | congruence]. }
      destruct (proj1 (invoice_ok_spec _ _) (Hinv _ Hin0) Hm0)
        as (t0 & Hin_t0 & Hl0 & Hs0 & Hb0).
      rewrite Hl in Hl0. injection Hl0 as ->.
      destruct (String.eqb_spec (t_id t0) EmptyString) as [E | _].
      { exfalso. rewrite Forall_forall in Het. exact (Het _ Hin_t0 E). }
      split.
      * apply link_symmetry_spec. cbn [transactions invoices]. split.
        -- intros inv Hin. apply Hkeep in Hin. destruct Hin as [Hin Hne].
           apply invoice_ok_spec. intros Hm.
           destruct (proj1 (invoice_ok_spec _ _) (Hinv _ Hin) Hm)
             as (t & Hin_t & Hlt & Hst & Hbt).
           exists t. split; [| auto].
           apply in_relink. exists t. split; [exact Hin_t |].
           destruct (String.eqb_spec (t_id t) (t_id t0)) as [E | _];
             [| reflexivity].
           exfalso. apply Hne.
           assert (t = t0)
             by (apply (NoDup_map_inj t_id (transactions st)); assumption).
           subst t. congruence.
        -- intros t' Hin'. apply in_relink in Hin'.
           destruct Hin' as (t & Hin_t & ->).
           destruct (String.eqb_spec (t_id t) (t_id t0)) as [E | Hne].
           ++ apply transaction_ok_spec. simpl. intros iid Habs. discriminate.
           ++ apply transaction_ok_spec. intros iid Hlt.
              destruct (proj1 (transaction_ok_spec _ _) (Htx _ Hin_t) iid Hlt)
                as (inv & Hin & Hid & Hm & Hb).
              exists inv. split; [| auto].
              apply Hkeep. split; [exact Hin |].
              intros E. apply Hne.
              rewrite (Hsame _ Hin E) in Hb. congruence.
      * unfold ids_ok. cbn [transactions invoices]. repeat split.
        -- rewrite relink_ids. exact Hnt.
        -- apply NoDup_map_filter, Hni.
        -- apply relink_nonempty, Het.
        -- apply Forall_filter_keep, Hei.
        -- apply Forall_filter_keep, HL.
    + split.
      * apply link_symmetry_spec. cbn [transactions invoices]. split.
        -- intros inv Hin. apply Hkeep in Hin. apply Hinv, Hin.
        -- intros t Hin_t. apply transaction_ok_spec. intros iid Hlt.
           destruct (proj1 (transaction_ok_spec _ _) (Htx _ Hin_t) iid Hlt)
             as (inv & Hin & Hid & Hm & Hb).
           exists inv. split; [| auto].
           apply Hkeep. split; [exact Hin |].
           intros E. rewrite (Hsame _ Hin E) in Hb. congruence.
      * unfold ids_ok. cbn [transactions invoices].
        repeat split; try assumption.
        -- apply NoDup_map_filter, Hni.
        -- apply Forall_filter_keep, Hei.
        -- apply Forall_filter_keep, HL.
  - assert (Hnone : forall inv, In inv (invoices st) -> i_id inv <> id).
    { intros inv Hin. apply String.eqb_neq.
      exact (List.find_none _ _ Hf inv Hin). }
    split.
    + apply link_symmetry_spec. cbn [transactions invoices]. split.
      * intros inv Hin. apply Hkeep in Hin. apply Hinv, Hin.
      * intros t Hin_t. apply transaction_ok_spec. intros iid Hlt.
        destruct (proj1 (transaction_ok_spec _ _) (Htx _ Hin_t) iid Hlt)
          as (inv & Hin & Hid & Hm & Hb).
        exists inv. split; [| auto].
        apply Hkeep. split; [exact Hin | apply Hnone, Hin].
    + unfold ids_ok. cbn [transactions invoices].
      repeat split; try assumption.
      * apply NoDup_map_filter, Hni.
      * apply Forall_filter_keep, Hei.
      * apply Forall_filter_keep, HL.
Qed.





(** The linked pair of the counterexample is a consistent state. *)
Lemma linked_state_consistent : consistent linked_state.
Proof.
  split; [reflexivity |]. unfold ids_ok, linked_state. simpl.
  repeat split.
  - constructor; [simpl; tauto | constructor].
  - constructor; [simpl; tauto | constructor].
  - constructor; [discriminate | constructor].
  - constructor; [discriminate | constructor].
  - constructor; [reflexivity | constructor].
Qed.

(** C2 (the code departs from the claim).  From a well-formed state in
    which transaction [t1] and invoice [i1] are linked to each other,
    deleting the transaction (alone or through a bulk selection) leaves the
    invoice matched to a transaction that no longer exists, and the manual
    toggle sets the transaction to pending while the invoice stays matched.
    Deleting the invoice, and matching a new invoice, keep the links
    symmetric on this state, as they do on every consistent state. *)
Theorem deletion_and_toggle_break_link_symmetry :
  ids_ok linked_state /\
  link_symmetry linked_state = true /\
  link_symmetry (executeDelete (Some "t1") ∅ linked_state) = false /\
  link_symmetry (executeDelete (Some "bulk") {["t1"]} linked_state) = false /\
  link_symmetry (toggleMatch "t1" linked_state) = false /\
  link_symmetry (deleteInvoice true "i1" linked_state) = true /\
  link_symmetry (processFile iso_date_ms TY2024 (Some receipt) "inv9"
                   "2024-06-01" "data" (mkState [candidate "2024-05-15"] []))
  = true.
Proof.
  split; [apply linked_state_consistent |].
  vm_compute. repeat split; reflexivity.
Qed.

End LinkFacts.

(* ================================================================== *)
(** ** Further properties of the tax engine *)
(* ================================================================== *)

Module TaxMore.
Import TaxEstimator TaxFacts.

(** As [q_split], innermost [Math.min] and [Math.max] first, so that
    nested ones are all analysed. *)
Ltac no_minmax t :=
  lazymatch t with
  | context [Qmax _ _] => fail
  | context [Qmin _ _] => fail
  | _ => idtac
  end.

Ltac q_split_nested :=
  repeat match goal with
  | |- context [Qmax ?a ?b] =>
      no_minmax a; no_minmax b;
      let m := fresh "m" in let E := fresh "E" in
      destruct (Q.max_spec a b) as [[? E] | [? E]];
      revert E; generalize (Qmax a b); intros m E
  | |- context [Qmin ?a ?b] =>
      no_minmax a; no_minmax b;
      let m := fresh "m" in let E := fresh "E" in
      destruct (Q.min_spec a b) as [[? E] | [? E]];
      revert E; generalize (Qmin a b); intros m E
  end.

(** The band amounts of an estimate are those of its net taxable income. *)
Lemma estimate_bands txs y oi :
  let e := estimate txs y oi in
  bands (taxableIncome e) = (basicTax e, higherTax e, additionalTax e) /\
  estimatedTaxBeforeRelief e = basicTax e + higherTax e + additionalTax e.
Proof.
  unfold estimate. cbv zeta.
  destruct (bands (Qmax _ _)) as [[b h] a] eqn:Eb. simpl.
  rewrite Eb. split; reflexivity.
Qed.

(** The allowance is the full 12,570 up to an income of 100,000 and only
    there, nothing from 125,140 on and only there, and in between it is
    strictly between the two. *)
Theorem allowance_taper_range txs y oi :
  let e := estimate txs y oi in
  0 <= allowance e /\ allowance e <= 12570 /\
  (allowance e == 12570 <-> totalIncome e <= 100000) /\
  (allowance e == 0 <-> 125140 <= totalIncome e).
Proof.
  intros e.
  destruct (estimate_fields txs y oi) as (_ & _ & _ & _ & _ & Eal & _).
  fold e in Eal. rewrite Eal.
  destruct (allowance_cases (totalIncome e))
    as [[H E] | [[H1 [H2 E]] | [H E]]];
    repeat split; intros; lra.
Qed.



Lemma bands_amounts t b h a :
  0 <= t -> bands t = (b, h, a) ->
  b * 5 + h * (5 # 2) + a * (20 # 9) == t /\
  0 <= b /\ b <= 7540 /\ 0 <= h /\ h <= 29948 /\ 0 <= a /\
  (0 < h -> b == 7540) /\ (0 < a -> h == 29948).
Proof.
  intros Ht Eb. unfold bands, basicBand, higherBand in Eb.
  revert Eb. q_split; intros [= <- <- <-]; repeat split; intros; lra.
Qed.

Lemma estimate_taxable_nonneg txs y oi :
  0 <= taxableIncome (estimate txs y oi).
Proof.
  destruct (estimate_fields txs y oi) as (_ & _ & _ & _ & _ & _ & Eti & _).
  rewrite Eti. apply taxableIncome_nonneg.
Qed.



(** Gross tax before relief lies between 20% and 45% of the net taxable
    income. *)
Theorem gross_tax_rate_bounds txs y oi :
  let e := estimate txs y oi in
  taxableIncome e * (20 # 100) <= estimatedTaxBeforeRelief e /\
  estimatedTaxBeforeRelief e <= taxableIncome e * (45 # 100).
Proof.
  intros e.
  destruct (estimate_bands txs y oi) as [Eb Eg]. fold e in Eb, Eg.
  destruct (bands_amounts _ _ _ _ (estimate_taxable_nonneg txs y oi) Eb)
    as (Hsum & Hb0 & Hb1 & Hh0 & Hh1 & Ha0 & _).
  fold e in Hsum. rewrite Eg. split; lra.
Qed.

(** The final tax is the gross tax less 20% of the finance costs, floored at
    zero; it never exceeds the gross tax. *)
Theorem final_tax_formula txs y oi :
  let e := estimate txs y oi in
  finalEstimatedTax e
    == Qmax 0 (estimatedTaxBeforeRelief e - financeCosts e * (20 # 100)) /\
  finalEstimatedTax e <= estimatedTaxBeforeRelief e.
Proof.
  intros e.
  destruct (estimate_fields txs y oi)
    as (_ & _ & Efc & _ & _ & _ & _ & Etbr & Erel & Efin).
  fold e in Efc, Etbr, Erel, Efin.
  assert (Hfc : 0 <= financeCosts e)
    by (rewrite Efc; apply financeCosts_nonneg).
  assert (Ht : 0 <= estimatedTaxBeforeRelief e)
    by (rewrite Etbr; apply taxBeforeRelief_nonneg, taxableIncome_nonneg).
  rewrite Efin, Erel. unfold relief_of.
  revert Hfc Ht. generalize (financeCosts e) (estimatedTaxBeforeRelief e).
  intros fc g Hfc Hg. split; q_split_nested; lra.
Qed.





End TaxMore.

(* ================================================================== *)
(** ** The estimate does not depend on bookkeeping fields *)
(* ================================================================== *)

Module EstimateStability.
Import TaxEstimator TransactionManager InvoiceManager EstimateInputs.

Lemma same_money_refl l : Forall2 same_money l l.
Proof. induction l; constructor; [repeat split | assumption]. Qed.

Lemma filter_same_money (p : Transaction -> bool) l1 l2 :
  (forall a b, same_money a b -> p a = p b) ->
  Forall2 same_money l1 l2 ->
  Forall2 same_money (List.filter p l1) (List.filter p l2).
Proof.
  intros Hp H. induction H as [| a b l1 l2 Hab _ IH]; simpl.
  - constructor.
  - rewrite (Hp a b Hab). destruct (p b); [constructor |]; assumption.
Qed.

Lemma sum_same_money (f : Transaction -> Q) l1 l2 :
  (forall a b, same_money a b -> f a = f b) ->
  Forall2 same_money l1 l2 -> sum_by f l1 = sum_by f l2.
Proof.
  intros Hf H. unfold sum_by. generalize 0.
  induction H as [| a b l1 l2 Hab _ IH]; intros acc; simpl.
  - reflexivity.
  - rewrite (Hf a b Hab). apply IH.
Qed.

Lemma estimate_same_money txs1 txs2 y oi :
  Forall2 same_money txs1 txs2 -> estimate txs1 y oi = estimate txs2 y oi.
Proof.
  intros H.
  assert (Hy : Forall2 same_money (yearTransactions txs1 y)
                                  (yearTransactions txs2 y)).
  { apply filter_same_money; [| exact H].
    intros a b (Hd & _). rewrite Hd. reflexivity. }
  assert (Eri : rentalIncome_of (yearTransactions txs1 y)
                = rentalIncome_of (yearTransactions txs2 y)).
  { apply sum_same_money; [intros a b (_ & Ha & _); exact Ha |].
    apply filter_same_money; [| exact Hy].
    intros a b (_ & Ha & _). unfold is_income. rewrite Ha. reflexivity. }
  assert (Efc : financeCosts_of (yearTransactions txs1 y)
                = financeCosts_of (yearTransactions txs2 y)).
  { apply sum_same_money; [intros a b (_ & Ha & _); rewrite Ha; reflexivity |].
    apply filter_same_money; [| exact Hy].
    intros a b (_ & _ & Hc). unfold is_finance. rewrite Hc. reflexivity. }
  assert (Eoe : otherExpenses_of (yearTransactions txs1 y)
                = otherExpenses_of (yearTransactions txs2 y)).
  { apply sum_same_money; [intros a b (_ & Ha & _); rewrite Ha; reflexivity |].
    apply filter_same_money; [| exact Hy].
    intros a b (_ & Ha & Hc). unfold is_other_expense.
    rewrite Ha, Hc. reflexivity. }
  unfold estimate. rewrite Eri, Efc, Eoe. reflexivity.
Qed.

Lemma map_same_money (g : Transaction -> Transaction) l :
  (forall t, same_money (g t) t) -> Forall2 same_money (List.map g l) l.
Proof.
  intros Hg. induction l as [| t l IH]; simpl; constructor; auto.
Qed.

Lemma relink_same_money tid link status txs :
  Forall2 same_money (relink tid link status txs) txs.
Proof.
  apply map_same_money. intros t.
  destruct (String.eqb (t_id t) tid); repeat split.
Qed.

(** Tagging, toggling the reconciliation status, ingesting a receipt and
    deleting a receipt leave the tax estimate of every period unchanged. *)
Theorem estimate_ignores_bookkeeping
    Date_getTime tag selectedIds id y extracted newId today base64
    confirmed st y' oi :
  estimate (transactions (bulkApplyTag tag selectedIds st)) y' oi
  = estimate (transactions st) y' oi /\
  estimate (transactions (toggleMatch id st)) y' oi
  = estimate (transactions st) y' oi /\
  estimate (transactions
              (processFile Date_getTime y extracted newId today base64 st))
           y' oi
  = estimate (transactions st) y' oi /\
  estimate (transactions (deleteInvoice confirmed id st)) y' oi
  = estimate (transactions st) y' oi.
Proof.
  repeat split; apply estimate_same_money.
  - apply map_same_money. intros t.
    destruct (bool_decide _); repeat split.
  - apply map_same_money. intros t.
    destruct (negb _); repeat split.
  - unfold processFile. destruct extracted as [x |].
    + destruct (find_match _ _ _ _); cbn [transactions].
      * apply relink_same_money.
      * apply same_money_refl.
    + apply same_money_refl.
  - unfold deleteInvoice. destruct (negb confirmed).
    + apply same_money_refl.
    + cbn [transactions]. destruct (List.find _ _) as [inv |].
      * destruct (i_matchedTransactionId inv) as [tid |].
        -- destruct (String.eqb tid EmptyString).
           ++ apply same_money_refl.
           ++ apply relink_same_money.
        -- apply same_money_refl.
      * apply same_money_refl.
Qed.

End EstimateStability.

(* ================================================================== *)
(** ** Properties of the period resolver *)
(* ================================================================== *)

Module PeriodFacts.

Lemma ascii_compare_trans_le a b c :
  Ascii.compare a b <> Gt -> Ascii.compare b c <> Gt ->
  Ascii.compare a c <> Gt.
Proof.
  unfold Ascii.compare. rewrite !N.compare_le_iff. lia.
Qed.

Lemma ascii_compare_eq a b : Ascii.compare a b = Eq -> a = b.
Proof. apply Ascii.compare_eq_iff. Qed.

Lemma ascii_compare_lt_trans a b c :
  Ascii.compare a b = Lt -> Ascii.compare b c = Lt -> Ascii.compare a c = Lt.
Proof.
  unfold Ascii.compare. rewrite !N.compare_lt_iff. lia.
Qed.

(** Lexicographic comparison of strings is transitive. *)
Lemma string_compare_trans_le a :
  forall b c, String.compare a b <> Gt -> String.compare b c <> Gt ->
              String.compare a c <> Gt.
Proof.
  induction a as [| x a IH]; intros b c Hab Hbc.
  - destruct c; simpl; discriminate.
  - destruct b as [| y b]; [simpl in Hab; congruence |].
    destruct c as [| z c]; [simpl in Hbc; congruence |].
    simpl in *.
    destruct (Ascii.compare x y) eqn:Exy; try congruence;
    destruct (Ascii.compare y z) eqn:Eyz; try congruence.
    + pose proof Eyz as Ezz. apply ascii_compare_eq in Exy, Eyz.
      subst. rewrite Ezz. eauto.
    + apply ascii_compare_eq in Exy. subst. rewrite Eyz. discriminate.
    + apply ascii_compare_eq in Eyz. subst. rewrite Exy. discriminate.
    + rewrite (ascii_compare_lt_trans _ _ _ Exy Eyz). discriminate.
Qed.

Lemma str_le_trans a b c :
  str_le a b = true -> str_le b c = true -> str_le a c = true.
Proof.
  unfold str_le. intros Hab Hbc.
  pose proof (string_compare_trans_le a b c) as H.
  destruct (String.compare a b); try discriminate;
  destruct (String.compare b c); try discriminate;
  destruct (String.compare a c); try reflexivity;
  exfalso; apply H; congruence.
Qed.

(** The fiscal periods do not overlap: a date string, whatever its form,
    lies in at most one of them. *)
Theorem tax_years_do_not_overlap dateStr y1 y2 :
  isDateInTaxYear dateStr y1 = true -> isDateInTaxYear dateStr y2 = true ->
  y1 = y2.
Proof.
  unfold isDateInTaxYear. rewrite !Bool.andb_true_iff.
  intros [Hs1 He1] [Hs2 He2].
  pose proof (str_le_trans _ _ _ Hs1 He2) as H12.
  pose proof (str_le_trans _ _ _ Hs2 He1) as H21.
  destruct y1, y2; try reflexivity;
    first [ discriminate H12 | discriminate H21 ].
Qed.

Lemma tax_years_do_not_overlap_witness :
  isDateInTaxYear "2025-04-05" TY2024 = true /\
  isDateInTaxYear "2025-04-06" TY2025 = true /\
  isDateInTaxYear "2025-04-05" TY2025 = false /\
  TY2024 = TY2024.
Proof.
  split; [reflexivity |]. split; [reflexivity |]. split; [reflexivity |].
  exact (tax_years_do_not_overlap "2025-04-05" TY2024 TY2024 eq_refl eq_refl).
Defined.

End PeriodFacts.

(* ================================================================== *)
(** ** Further properties of import and categorization *)
(* ================================================================== *)

Module ImportMore.
Import Js Encoding GeminiService TransactionManager TransactionFacts Samples.

(** The category of a categorization is never missing or falsy: it is the
    uncategorized code or the truthy value the classifier returned. *)
Lemma categorize_category_truthy JSON_parse classifier d a ps :
  truthy (c_category (categorizeTransaction JSON_parse classifier d a ps))
  = true.
Proof.
  unfold categorizeTransaction.
  destruct (classifier d a ps) as [text |]; [| reflexivity].
  destruct (get_prop _ "category") as [c |]; [| reflexivity].
  destruct (get_prop _ "propertyId"); [| reflexivity].
  destruct (get_prop _ "confidence"); [| reflexivity].
  destruct (get_prop _ "reasoning"); [| reflexivity].
  cbn [c_category]. unfold or_else.
  destruct (truthy c) eqn:E; [exact E | reflexivity].
Qed.

(** The confidence of a categorization is 0 only on the error path:
    otherwise it is the truthy value returned or the default 0.5. *)
Theorem categorize_confidence_default JSON_parse classifier d a ps :
  let r := categorizeTransaction JSON_parse classifier d a ps in
  r = on_error \/ truthy (c_confidence r) = true.
Proof.
  unfold categorizeTransaction.
  destruct (classifier d a ps) as [text |]; [| left; reflexivity].
  destruct (get_prop _ "category"); [| left; reflexivity].
  destruct (get_prop _ "propertyId"); [| left; reflexivity].
  destruct (get_prop _ "confidence") as [c |]; [| left; reflexivity].
  destruct (get_prop _ "reasoning"); [| left; reflexivity].
  right. cbn [c_confidence]. unfold or_else.
  destruct (truthy c) eqn:E; [exact E | reflexivity].
Qed.

Lemma assignedPropertyId_valid ai props :
  match props with
  | [] => assignedPropertyId ai props = EmptyString
  | _ :: _ => In (assignedPropertyId ai props) (List.map p_id props)
  end.
Proof.
  unfold assignedPropertyId. destruct props as [| p props].
  - destruct (c_propertyId ai); try reflexivity.
    simpl. rewrite Bool.andb_false_r. reflexivity.
  - set (ps := p :: props).
    assert (Hfb : In (p_id p) (List.map p_id ps)) by (left; reflexivity).
    destruct (c_propertyId ai) as [| | | | s | |]; try exact Hfb.
    destruct (truthy (JStr s) && existsb _ ps) eqn:E; [| exact Hfb].
    apply Bool.andb_true_iff in E. destruct E as [_ E].
    apply List.existsb_exists in E. destruct E as (q & Hq & Eq).
    apply String.eqb_eq in Eq. rewrite <- Eq. apply List.in_map, Hq.
Qed.

Section Batch.

Variable Number_toString : Q -> string.
Variable categorize : string -> Q -> list Property -> Categorization.

Local Abbreviation importRow := (importRow Number_toString categorize).
Local Abbreviation processImportedData :=
  (processImportedData Number_toString categorize).

(** Every imported transaction is assigned a property that exists, whatever
    the classifier proposed; with no property defined the field is empty. *)
Theorem imported_property_exists txs props items :
  exists added,
    o_transactions (processImportedData txs props items)
    = (txs ++ added)%list /\
    Forall (fun t =>
              match props with
              | [] => t_propertyId t = EmptyString
              | _ :: _ => In (t_propertyId t) (List.map p_id props)
              end) added.
Proof.
  eexists. split; [reflexivity |].
  induction items as [| item items IH]; simpl; [constructor |].
  unfold TransactionManager.importRow at 1.
  destruct (decide _); [exact IH |].
  simpl. constructor; [| exact IH]. cbn [t_propertyId].
  apply assignedPropertyId_valid.
Qed.


End Batch.

(** Categorization composed with import: with the service as categorizer,
    every stored import carries a truthy category. *)
Theorem imported_category_is_truthy Number_toString JSON_parse classifier
    txs props items :
  exists added,
    o_transactions
      (processImportedData Number_toString
         (categorizeTransaction JSON_parse classifier) txs props items)
    = (txs ++ added)%list /\
    Forall (fun t => truthy (t_category t) = true) added.
Proof.
  eexists. split; [reflexivity |].
  induction items as [| item items IH]; simpl; [constructor |].
  unfold importRow at 1. destruct (decide _); [exact IH |].
  simpl. constructor; [| exact IH]. cbn [t_category].
  apply categorize_category_truthy.
Qed.

(** Witnesses for the identity lemmas. *)
Lemma import_id_ignores_tail_witness :
  String.length "2024-01-15" = 10%nat /\
  deterministicId num_to_string (mkRow "2024-01-15" "RENT FROM TENANT" 1200)
  = deterministicId num_to_string (mkRow "2024-01-15" "REPAIR BOILER" (-300)).
Proof.
  split; [reflexivity |].
  apply (import_id_ignores_tail num_to_string "2024-01-15" "R"
           "ENT FROM TENANT" "EPAIR BOILER" 1200 (-300)).
  reflexivity.
Defined.

Lemma manual_id_ignores_timestamp_witness :
  String.length "2024-" = 5%nat /\
  manualId num_to_string "2024-03-01" "Cash for plumber" (-45) 1709300000000
  = manualId num_to_string "2024-09-30" "Window cleaner" (-20) 1727700000000.
Proof.
  split; [reflexivity |].
  apply (manual_id_ignores_timestamp num_to_string "2024-" "03-01" "09-30").
  reflexivity.
Defined.

Lemma manual_id_differs_from_import_id_witness :
  JsonRef.is_digit "2"%char = true /\
  manualId num_to_string "2024-03-01" "Cash for plumber" (-45) 1709300000000
  <> deterministicId num_to_string (mkRow "2024-03-01" "Cash for plumber" (-45)).
Proof.
  split; [reflexivity |].
  apply (manual_id_differs_from_import_id num_to_string "2024-03-01"
           "Cash for plumber" (-45) 1709300000000%Z "2"%char "024-03-01").
  reflexivity.
Defined.

End ImportMore.

(* ================================================================== *)
(** ** Further properties of the managers' mutations *)
(* ================================================================== *)

Module MutationFacts.
Import InvoiceManager TransactionManager Links LinkFacts InvoiceFacts
       DateRef Samples.

Lemma state_eta st :
  {| transactions := transactions st; invoices := invoices st |} = st.
Proof. destruct st; reflexivity. Qed.

Lemma with_status_same t : with_status t (t_status t) = t.
Proof. destruct t; reflexivity. Qed.

Lemma map_id_on {A} (g : A -> A) l :
  (forall x, In x l -> g x = x) -> List.map g l = l.
Proof.
  intros H. induction l as [| x l IH]; simpl; [reflexivity |].
  rewrite H by (left; reflexivity). rewrite IH; [reflexivity |].
  intros y Hy. apply H. right. exact Hy.
Qed.

(** Toggling the same transaction twice gives the state back, provided it
    was not flagged; a flagged transaction ends up pending, so the flag is
    lost. *)
Theorem toggle_twice id st :
  (forall t, In t (transactions st) -> t_id t = id ->
             t_status t <> flagged) ->
  toggleMatch id (toggleMatch id st) = st.
Proof.
  intros H. unfold toggleMatch. cbn [transactions invoices].
  rewrite List.map_map. rewrite map_id_on; [apply state_eta |].
  intros t Hin. destruct (String.eqb_spec (t_id t) id) as [E | E]; simpl.
  - cbn [with_status with_link t_id]. rewrite (proj2 (String.eqb_eq _ _) E).
    simpl. specialize (H t Hin E).
    destruct t as [i d de a p c s so l tg]. simpl in *.
    destruct s; try reflexivity. contradiction.
  - destruct (String.eqb_spec (t_id t) id); [contradiction | reflexivity].
Qed.

Lemma toggle_twice_witness :
  toggleMatch "t1" (toggleMatch "t1" linked_state) = linked_state.
Proof.
  apply toggle_twice. intros t [<- | []] _. discriminate.
Defined.

(** The flag is not restored: two toggles of a flagged transaction leave it
    pending, and one toggle never produces the status flagged. *)
Theorem toggle_drops_flag id st t :
  In t (transactions (toggleMatch id st)) -> t_id t = id ->
  t_status t <> flagged.
Proof.
  unfold toggleMatch. cbn [transactions]. intros Hin E.
  apply List.in_map_iff in Hin. destruct Hin as (t0 & <- & _).
  destruct (String.eqb_spec (t_id t0) id) as [E0 | E0]; simpl in *.
  - destruct (t_status t0); discriminate.
  - contradiction.
Qed.

Lemma toggle_drops_flag_witness :
  let t := with_status (candidate "2024-05-15") flagged in
  let t' := with_status (candidate "2024-05-15") reconciled in
  transactions (toggleMatch "t1" (mkState [t] [])) = [t'] /\
  t_id t' = "t1" /\ t_status t' <> flagged.
Proof.
  cbv zeta. split; [reflexivity |]. split; [reflexivity |].
  apply (toggle_drops_flag "t1"
           (mkState [with_status (candidate "2024-05-15") flagged] [])
           (with_status (candidate "2024-05-15") reconciled));
    [left; reflexivity | reflexivity].
Defined.

(** Deleting transactions: a single deletion is the bulk deletion of a
    one-element selection, whatever is selected at the time. *)
Theorem delete_single_is_bulk_of_one id selectedIds st :
  id <> "bulk" ->
  executeDelete (Some id) selectedIds st
  = executeDelete (Some "bulk") {[ id ]} st.
Proof.
  intros Hne. unfold executeDelete.
  destruct (String.eqb_spec id "bulk") as [E | _]; [contradiction |].
  simpl. f_equal. apply List.filter_ext. intros t.
  destruct (String.eqb_spec (t_id t) id) as [E | E].
  - rewrite bool_decide_eq_true_2; [reflexivity | set_solver].
  - rewrite bool_decide_eq_false_2; [reflexivity | set_solver].
Qed.

Lemma delete_single_is_bulk_of_one_witness :
  "t1" <> "bulk" /\
  executeDelete (Some "t1") ∅ linked_state
  = executeDelete (Some "bulk") {[ "t1" ]} linked_state.
Proof.
  split; [discriminate |]. apply delete_single_is_bulk_of_one. discriminate.
Defined.


Lemma Forall2_map_left {A} (R : A -> A -> Prop) (g : A -> A) l :
  (forall x, R (g x) x) -> Forall2 R (List.map g l) l.
Proof. intros H. induction l; simpl; constructor; auto. Qed.

(** Every upload stores exactly one new invoice, carrying the identifier
    drawn for it, after the invoices already stored.  The transactions keep
    their number and order, and a transaction changes only by becoming
    reconciled and linked to the new invoice, which is then matched and names
    that transaction; when the extraction fails the invoice is unmatched
    and no transaction changes. *)
Theorem upload_stores_one_invoice Date_getTime y extracted newId today
    base64 st :
  let st' := processFile Date_getTime y extracted newId today base64 st in
  exists inv,
    invoices st' = (invoices st ++ [inv])%list /\
    i_id inv = newId /\
    (i_status inv = matched \/
     (i_status inv = unmatched /\ i_matchedTransactionId inv = None /\
      transactions st' = transactions st)) /\
    Forall2 (fun t' t =>
               t' = t \/
               (i_status inv = matched /\
                i_matchedTransactionId inv = Some (t_id t) /\
                t' = with_link t (Some newId) reconciled))
            (transactions st') (transactions st) /\
    (extracted = None ->
     i_status inv = unmatched /\ transactions st' = transactions st).
Proof.
  cbv zeta. unfold processFile.
  assert (Hrefl : forall (P : Transaction -> Transaction -> Prop) l,
            Forall2 (fun t' t => t' = t \/ P t' t) l l).
  { intros P l. induction l; constructor; auto. }
  destruct extracted as [x |].
  - destruct (find_match _ _ _ _) as [m |]; eexists;
      cbn [transactions invoices];
      (split; [reflexivity |]); cbn [i_id i_status i_matchedTransactionId].
    + split; [reflexivity |]. split; [left; reflexivity |].
      split; [| discriminate].
      apply Forall2_map_left. intros t.
      destruct (String.eqb_spec (t_id t) (t_id m)) as [E | _];
        [right | left; reflexivity].
      rewrite E. auto.
    + split; [reflexivity |]. split; [right; auto |].
      split; [apply Hrefl | discriminate].
  - eexists. cbn [transactions invoices]. split; [reflexivity |].
    cbn [i_id i_status i_matchedTransactionId].
    split; [reflexivity |]. split; [right; auto |].
    split; [apply Hrefl | auto].
Qed.

Lemma upload_stores_one_invoice_witness :
  let st := mkState [candidate "2024-05-15"] [] in
  let st' := processFile iso_date_ms TY2024 None "inv9" "2024-06-01" "data"
               st in
  List.map i_status (invoices st') = [unmatched] /\
  transactions st' = transactions st.
Proof.
  cbv zeta.
  destruct (upload_stores_one_invoice iso_date_ms TY2024 None "inv9"
              "2024-06-01" "data" (mkState [candidate "2024-05-15"] []))
    as (inv & Einv & _ & _ & _ & Hfail).
  destruct (Hfail eq_refl) as [Hs Ht].
  split; [| exact Ht].
  rewrite Einv. simpl. rewrite Hs. reflexivity.
Defined.

(** Deleting a matched invoice of a consistent state: no invoice with its
    identifier is left, the transaction it named is pending again and has no
    link, and every other transaction is kept as it was. *)
Theorem delete_matched_invoice_resets_transaction id st inv tid :
  consistent st ->
  In inv (invoices st) -> i_id inv = id ->
  i_matchedTransactionId inv = Some tid ->
  let st' := deleteInvoice true id st in
  Forall (fun i => i_id i <> id) (invoices st') /\
  (forall i, In i (invoices st) -> i_id i <> id -> In i (invoices st')) /\
  transactions st' = relink tid None pending (transactions st) /\
  (exists t, In t (transactions st') /\ t_id t = tid /\
             t_status t = pending /\ t_matchedInvoiceId t = None) /\
  (forall t, In t (transactions st) -> t_id t <> tid ->
             In t (transactions st')).
Proof.
  intros [Hsym (Hnt & Hni & Het & Hei & HL)] Hin Hid Hl.
  apply link_symmetry_spec in Hsym. destruct Hsym as [Hinv _].
  assert (Hm : i_status inv = matched).
  { rewrite Forall_forall in HL. apply HL; [exact Hin | congruence]. }
  destruct (proj1 (invoice_ok_spec _ _) (Hinv _ Hin) Hm)
    as (t0 & Hin0 & Hl0 & _).
  rewrite Hl in Hl0. injection Hl0 as ->.
  assert (Hnonempty : t_id t0 <> EmptyString).
  { rewrite Forall_forall in Het. apply Het, Hin0. }
  assert (Hfind : List.find (fun i => String.eqb (i_id i) id) (invoices st)
                  = Some inv).
  { destruct (List.find _ _) as [inv' |] eqn:Hf.
    - apply List.find_some in Hf. destruct Hf as [Hin' Hid'].
      apply String.eqb_eq in Hid'. f_equal.
      apply (NoDup_map_inj i_id (invoices st)); congruence.
    - exfalso. pose proof (List.find_none _ _ Hf inv Hin) as Hc.
      simpl in Hc. apply String.eqb_neq in Hc. contradiction. }
  cbv zeta. unfold deleteInvoice. cbn [negb]. rewrite Hfind, Hl.
  destruct (String.eqb_spec (t_id t0) EmptyString) as [E | _];
    [contradiction |].
  cbn [transactions invoices]. split; [| split; [| split; [| split]]].
  - apply Forall_forall. intros i Hi. apply List.filter_In in Hi.
    destruct Hi as [_ Hi]. apply Bool.negb_true_iff, String.eqb_neq in Hi.
    exact Hi.
  - intros i Hi Hne. apply List.filter_In. split; [exact Hi |].
    apply Bool.negb_true_iff, String.eqb_neq. exact Hne.
  - reflexivity.
  - exists (with_link t0 None pending). split; [| repeat split].
    apply in_relink. exists t0. split; [exact Hin0 |].
    rewrite String.eqb_refl. reflexivity.
  - intros t Ht Hne. apply in_relink. exists t. split; [exact Ht |].
    destruct (String.eqb_spec (t_id t) (t_id t0)); [contradiction |].
    reflexivity.
Qed.

Lemma delete_matched_invoice_resets_transaction_witness :
  consistent linked_state /\
  invoices (deleteInvoice true "i1" linked_state) = [] /\
  List.map t_status (transactions (deleteInvoice true "i1" linked_state))
  = [pending] /\
  List.map t_matchedInvoiceId
    (transactions (deleteInvoice true "i1" linked_state)) = [None].
Proof.
  split; [apply linked_state_consistent |].
  destruct (delete_matched_invoice_resets_transaction "i1" linked_state
              (mkInvoice "i1" "2024-05-10" "Screwfix" 45 "Fittings" matched
                 None (Some "t1")) "t1" linked_state_consistent
              (or_introl eq_refl) eq_refl eq_refl) as (_ & _ & E & _).
  split; [reflexivity |]. rewrite E. split; reflexivity.
Defined.

(** Witnesses for the consistency lemmas and for the order of the search. *)
Lemma deleteInvoice_keeps_consistency_witness :
  consistent linked_state /\
  consistent (deleteInvoice true "i1" linked_state).
Proof.
  split; [apply linked_state_consistent |].
  apply deleteInvoice_keeps_consistency, linked_state_consistent.
Defined.


Lemma find_match_most_recent_witness :
  let txs := [candidate "2024-05-08"; candidate "2024-05-12"] in
  let inv := mkInvoice "inv9" "2024-05-10" "Screwfix" 45 "Fittings"
               unmatched (Some "data") None in
  Forall (dated iso_date_ms) txs /\
  find_match iso_date_ms txs TY2024 inv = Some (candidate "2024-05-12") /\
  (time_of iso_date_ms (candidate "2024-05-08")
   <= time_of iso_date_ms (candidate "2024-05-12"))%Z.
Proof.
  cbv zeta.
  assert (Hd : Forall (dated iso_date_ms)
                 [candidate "2024-05-08"; candidate "2024-05-12"]).
  { repeat constructor; discriminate. }
  split; [exact Hd |]. split; [reflexivity |].
  apply (find_match_most_recent iso_date_ms
           [candidate "2024-05-08"; candidate "2024-05-12"] TY2024
           (mkInvoice "inv9" "2024-05-10" "Screwfix" 45 "Fittings"
              unmatched (Some "data") None)
           (candidate "2024-05-12") Hd eq_refl (candidate "2024-05-08"));
    [left; reflexivity | reflexivity | reflexivity].
Defined.

End MutationFacts.

(* ================================================================== *)
(** ** Properties of the ownership split *)
(* ================================================================== *)

Module SplitFacts.
Import Dashboard OwnershipSplit.




End SplitFacts.

(* ================================================================== *)
(** ** Properties of the cloud synchronisation *)
(* ================================================================== *)

Module CloudFacts.
Import Js CloudStorage InvoiceManager InvoiceFacts.

Lemma is_synced_expense_spec t :
  is_synced_expense t = true <->
  t_amount t < 0 /\ is_cat (t_category t) PERSONAL_000 = false /\
  is_cat (t_category t) UNCATEGORIZED = false.
Proof.
  unfold is_synced_expense.
  destruct (Qlt_le_dec (t_amount t) 0) as [Hlt | Hge].
  - destruct (is_cat (t_category t) PERSONAL_000),
             (is_cat (t_category t) UNCATEGORIZED);
      split; try discriminate; try tauto;
      intros (_ & H1 & H2); discriminate.
  - split; [discriminate |]. intros (Hlt & _). exfalso.
    apply (Qlt_irrefl 0). eapply Qle_lt_trans; eassumption.
Qed.

(** The invoices sent to the cloud are generated from the transactions
    alone: one for every expense shown in the receipt checklist of any
    period, and only for expenses that are neither personal nor
    uncategorized, each with a positive amount and naming its transaction. *)
Theorem synced_invoices_mirror_checklist Date_getTime txs :
  (forall y t, In t (expenseTransactions Date_getTime txs y) ->
               In (invoice_of_transaction t)
                  (generateInvoicesFromTransactions txs)) /\
  (forall g, In g (generateInvoicesFromTransactions txs) ->
     exists t, In t txs /\ g = invoice_of_transaction t /\
               t_amount t < 0 /\
               is_cat (t_category t) PERSONAL_000 = false /\
               is_cat (t_category t) UNCATEGORIZED = false) /\
  Forall (fun g => 0 < s_amount g /\
                   s_id g = "inv-" ++ s_matchedTransactionId g)
         (generateInvoicesFromTransactions txs) /\
  (List.length (generateInvoicesFromTransactions txs)
   <= List.length txs)%nat.
Proof.
  unfold generateInvoicesFromTransactions. split; [| split; [| split]].
  - intros y t Hin. apply in_expenseTransactions in Hin.
    destruct Hin as [Hin Hexp].
    apply is_checklist_expense_spec in Hexp.
    destruct Hexp as (_ & Hneg & Hp & Hu).
    apply List.in_map, List.filter_In. split; [exact Hin |].
    apply is_synced_expense_spec. auto.
  - intros g Hg. apply List.in_map_iff in Hg.
    destruct Hg as (t & <- & Ht). apply List.filter_In in Ht.
    destruct Ht as [Hin Hs]. apply is_synced_expense_spec in Hs.
    exists t. tauto.
  - apply Forall_forall. intros g Hg. apply List.in_map_iff in Hg.
    destruct Hg as (t & <- & Ht). apply List.filter_In in Ht.
    destruct Ht as [_ Hs]. apply is_synced_expense_spec in Hs.
    destruct Hs as (Hneg & _). cbn. split; [| reflexivity].
    rewrite Qabs_neg; lra.
  - rewrite List.length_map. apply List.filter_length_le.
Qed.

Lemma synced_invoices_mirror_checklist_witness :
  let txs := [Samples.candidate "2024-05-15"; Samples.personal_tx] in
  In (Samples.candidate "2024-05-15")
     (expenseTransactions DateRef.iso_date_ms txs TY2024) /\
  List.map s_matchedTransactionId (generateInvoicesFromTransactions txs)
  = ["t1"] /\
  In (invoice_of_transaction (Samples.candidate "2024-05-15"))
     (generateInvoicesFromTransactions txs).
Proof.
  cbv zeta.
  assert (H : In (Samples.candidate "2024-05-15")
                 (expenseTransactions DateRef.iso_date_ms
                    [Samples.candidate "2024-05-15"; Samples.personal_tx]
                    TY2024)) by (left; reflexivity).
  split; [exact H |]. split; [reflexivity |].
  exact (proj1 (synced_invoices_mirror_checklist DateRef.iso_date_ms
                  [Samples.candidate "2024-05-15"; Samples.personal_tx])
               TY2024 _ H).
Defined.

End CloudFacts.

(* ================================================================== *)
(** ** Properties of date normalisation *)
(* ================================================================== *)

Module NormalizeFacts.
Import CloudStorage.

Lemma digits_fuel_small f n acc :
  (0 <= n < 10)%Z ->
  digits_fuel (S f) n acc = String (digit_char n) acc.
Proof.
  intros H. cbn [digits_fuel]. rewrite Z.mod_small by lia.
  destruct (Z.ltb_spec n 10); [reflexivity | lia].
Qed.

Lemma digits_fuel_step f n acc :
  (10 <= n)%Z ->
  digits_fuel (S f) n acc
  = digits_fuel f (n / 10) (String (digit_char (n mod 10)) acc).
Proof.
  intros H. cbn [digits_fuel].
  destruct (Z.ltb_spec n 10); [lia | reflexivity].
Qed.

Lemma digit_char_is_digit n :
  (0 <= n < 10)%Z -> JsonRef.is_digit (digit_char n) = true.
Proof.
  intros H. rewrite <- (Z2Nat.id n) by lia.
  assert (Hk : (Z.to_nat n < 10)%nat) by lia.
  revert Hk. generalize (Z.to_nat n). intros k Hk.
  do 10 (destruct k as [| k]; [reflexivity |]). lia.
Qed.

Lemma one_digit n :
  (0 <= n < 10)%Z -> Z_to_string n = String (digit_char n) EmptyString.
Proof. intros H. unfold Z_to_string. apply digits_fuel_small, H. Qed.

Lemma print_two_digits n :
  (10 <= n < 100)%Z ->
  Z_to_string n
  = String (digit_char (n / 10)) (String (digit_char (n mod 10)) EmptyString).
Proof.
  intros H. unfold Z_to_string.
  assert (Hl : (3 <= Z.log2 n)%Z)
    by (change 3%Z with (Z.log2 8); apply Z.log2_le_mono; lia).
  destruct (Z.to_nat (Z.log2 n)) as [| f] eqn:E; [lia |].
  rewrite digits_fuel_step by lia.
  apply digits_fuel_small.
  split; [apply Z.div_pos; lia | apply Z.div_lt_upper_bound; lia].
Qed.

Lemma four_digits n :
  (1000 <= n < 10000)%Z ->
  Z_to_string n
  = String (digit_char (n / 10 / 10 / 10))
      (String (digit_char ((n / 10 / 10) mod 10))
         (String (digit_char ((n / 10) mod 10))
            (String (digit_char (n mod 10)) EmptyString))).
Proof.
  intros H. unfold Z_to_string.
  assert (Hl : (9 <= Z.log2 n)%Z)
    by (change 9%Z with (Z.log2 512); apply Z.log2_le_mono; lia).
  destruct (Z.to_nat (Z.log2 n)) as [ | [ | [ | f ] ] ] eqn:E; try lia.
  assert (H1 : (100 <= n / 10 < 1000)%Z)
    by (split; [apply Z.div_le_lower_bound; lia
               | apply Z.div_lt_upper_bound; lia]).
  assert (H2 : (10 <= n / 10 / 10 < 100)%Z)
    by (split; [apply Z.div_le_lower_bound; lia
               | apply Z.div_lt_upper_bound; lia]).
  assert (H3 : (1 <= n / 10 / 10 / 10 < 10)%Z)
    by (split; [apply Z.div_le_lower_bound; lia
               | apply Z.div_lt_upper_bound; lia]).
  rewrite !digits_fuel_step by lia.
  apply digits_fuel_small. lia.
Qed.

(** A day or month number printed on two characters. *)
Lemma padded_two_digits n :
  (1 <= n <= 31)%Z ->
  exists a b, padStart2 (int_to_string n) = String a (String b EmptyString) /\
              JsonRef.is_digit a = true /\ JsonRef.is_digit b = true.
Proof.
  intros H. unfold int_to_string.
  destruct (Z.ltb_spec n 0); [lia |].
  destruct (Z.ltb_spec n 10) as [Hs | Hb].
  - rewrite one_digit by lia. exists "0"%char, (digit_char n).
    split; [reflexivity |]. split; [reflexivity |].
    apply digit_char_is_digit. lia.
  - rewrite print_two_digits by lia.
    exists (digit_char (n / 10)), (digit_char (n mod 10)).
    split; [reflexivity |]. split; apply digit_char_is_digit.
    + split; [apply Z.div_pos; lia | apply Z.div_lt_upper_bound; lia].
    + apply Z.mod_pos_bound. lia.
Qed.

Lemma canonical_is_not_empty s :
  is_canonical_date s = true -> String.eqb s EmptyString = false.
Proof. destruct s; [discriminate | reflexivity]. Qed.

(** [normalizeDate] returns a canonical date unchanged, an unreadable one
    unchanged as well, and prints a readable one in the canonical form
    [YYYY-MM-DD] whenever its year has four digits; a second
    normalisation then changes nothing. *)
Theorem normalizeDate_yields_canonical Date_local s :
  normalizeDate Date_local None = EmptyString /\
  (is_canonical_date s = true -> normalizeDate Date_local (Some s) = s) /\
  (Date_local s = None -> normalizeDate Date_local (Some s) = s) /\
  (forall year month day,
     s <> EmptyString -> is_canonical_date s = false ->
     Date_local s = Some (year, month, day) ->
     (1000 <= year <= 9999)%Z -> (0 <= month <= 11)%Z ->
     (1 <= day <= 31)%Z ->
     is_canonical_date (normalizeDate Date_local (Some s)) = true /\
     normalizeDate Date_local (Some (normalizeDate Date_local (Some s)))
     = normalizeDate Date_local (Some s)).
Proof.
  split; [reflexivity |]. split; [| split].
  - intros Hc. unfold normalizeDate.
    rewrite (canonical_is_not_empty _ Hc), Hc. reflexivity.
  - intros Hn. unfold normalizeDate.
    destruct (String.eqb_spec s EmptyString) as [-> | _]; [reflexivity |].
    destruct (is_canonical_date s); [reflexivity |].
    rewrite Hn. reflexivity.
  - intros year month day Hne Hnc Hl Hy Hm Hd.
    assert (Hcanon : is_canonical_date (normalizeDate Date_local (Some s))
                     = true).
    { unfold normalizeDate.
      destruct (String.eqb_spec s EmptyString) as [E | _]; [contradiction |].
      rewrite Hnc, Hl.
      destruct (padded_two_digits (month + 1)) as (m1 & m2 & Em & Hm1 & Hm2);
        [lia |].
      destruct (padded_two_digits day) as (d1 & d2 & Ed & Hd1 & Hd2);
        [lia |].
      rewrite Em, Ed. unfold int_to_string.
      destruct (Z.ltb_spec year 0); [lia |].
      rewrite four_digits by lia. cbv [String.append is_canonical_date].
      rewrite Hm1, Hm2, Hd1, Hd2.
      assert (B1 : (100 <= year / 10 < 1000)%Z)
        by (split; [apply Z.div_le_lower_bound; lia
                   | apply Z.div_lt_upper_bound; lia]).
      assert (B2 : (10 <= year / 10 / 10 < 100)%Z)
        by (split; [apply Z.div_le_lower_bound; lia
                   | apply Z.div_lt_upper_bound; lia]).
      assert (B3 : (1 <= year / 10 / 10 / 10 < 10)%Z)
        by (split; [apply Z.div_le_lower_bound; lia
                   | apply Z.div_lt_upper_bound; lia]).
      rewrite !digit_char_is_digit;
        try (apply Z.mod_pos_bound; lia); try lia.
      reflexivity. }
    split; [exact Hcanon |].
    set (r := normalizeDate Date_local (Some s)) in *.
    unfold normalizeDate at 1.
    rewrite (canonical_is_not_empty _ Hcanon), Hcanon. reflexivity.
Qed.

Lemma normalizeDate_yields_canonical_witness :
  normalizeDate sample_local (Some "2024-05-15T10:30:00.000Z") = "2024-05-15"
  /\ is_canonical_date
       (normalizeDate sample_local (Some "2024-05-15T10:30:00.000Z")) = true
  /\ normalizeDate sample_local (Some "2024-05-15") = "2024-05-15"
  /\ normalizeDate sample_local (Some "15/05/2024") = "15/05/2024".
Proof.
  destruct (normalizeDate_yields_canonical sample_local
              "2024-05-15T10:30:00.000Z") as (_ & _ & _ & H).
  destruct (H 2024 4 15)%Z as [Hc _];
    [discriminate | reflexivity | reflexivity | lia | lia | lia |].
  split; [reflexivity |]. split; [exact Hc |].
  split.
  - apply (proj1 (proj2 (normalizeDate_yields_canonical sample_local
                           "2024-05-15"))). reflexivity.
  - apply (proj1 (proj2 (proj2 (normalizeDate_yields_canonical sample_local
                                  "15/05/2024")))). reflexivity.
Defined.

End NormalizeFacts.

(* ================================================================== *)
(** ** Extraction of the JSON payload *)
(* ================================================================== *)

Module ExtractFacts.
Import Js JsonRef GeminiService Scan.

Lemma app_cons c s t : (String c s ++ t = String c (s ++ t))%string.
Proof. reflexivity. Qed.

Lemma app_nil s : (EmptyString ++ s = s)%string.
Proof. reflexivity. Qed.

Lemma length_app s t :
  String.length (s ++ t) = (String.length s + String.length t)%nat.
Proof.
  induction s as [| c s IH]; [reflexivity |].
  rewrite app_cons. simpl. rewrite IH. reflexivity.
Qed.

Lemma prefix_tick_false pat c r :
  Ascii.eqb c "`"%char = false ->
  String.prefix (String "`"%char pat) (String c r) = false.
Proof.
  intros H. cbn [String.prefix]. destruct (ascii_dec "`"%char c) as [E | _];
    [| reflexivity].
  subst c. discriminate H.
Qed.

Lemma remove_all_fuel_skip pat body :
  no_tick body = true ->
  forall fuel tail,
    (String.length body <= fuel)%nat ->
    remove_all_fuel (String "`"%char pat) fuel (body ++ tail)
    = (body ++ remove_all_fuel (String "`"%char pat)
                 (fuel - String.length body) tail)%string.
Proof.
  induction body as [| c body IH]; intros Hnt fuel tail Hf.
  - rewrite !app_nil. simpl. rewrite Nat.sub_0_r. reflexivity.
  - simpl in Hnt. apply Bool.andb_true_iff in Hnt. destruct Hnt as [Hc Hnt].
    apply Bool.negb_true_iff in Hc.
    destruct fuel as [| fuel]; [simpl in Hf; lia |].
    rewrite !app_cons. cbn [remove_all_fuel].
    rewrite (prefix_tick_false pat c _ Hc).
    rewrite IH by (first [exact Hnt | simpl in Hf; lia]).
    reflexivity.
Qed.

Lemma remove_all_no_tick pat s :
  no_tick s = true -> remove_all (String "`"%char pat) s = s.
Proof.
  intros H. unfold remove_all.
  assert (E : forall fuel,
            remove_all_fuel (String "`"%char pat) fuel s = s).
  { induction s as [| c s IH]; intros fuel.
    - destruct fuel; reflexivity.
    - simpl in H. apply Bool.andb_true_iff in H. destruct H as [Hc H].
      apply Bool.negb_true_iff in Hc.
      destruct fuel as [| fuel]; [reflexivity |].
      cbn [remove_all_fuel]. rewrite (prefix_tick_false pat c _ Hc).
      rewrite IH by exact H. reflexivity. }
  apply E.
Qed.

Lemma trim_end_keep s c :
  is_trim_ws c = false ->
  trim_end (s ++ String c EmptyString) = (s ++ String c EmptyString)%string.
Proof.
  intros Hc. induction s as [| x s IH].
  - rewrite app_nil. simpl. rewrite Hc. reflexivity.
  - rewrite app_cons. cbn [trim_end]. rewrite IH.
    destruct s; reflexivity.
Qed.

Lemma trim_end_drop s c w :
  is_trim_ws c = false -> is_trim_ws w = true ->
  trim_end (s ++ String c (String w EmptyString))
  = (s ++ String c EmptyString)%string.
Proof.
  intros Hc Hw. induction s as [| x s IH].
  - rewrite !app_nil. simpl. rewrite Hw, Hc. reflexivity.
  - rewrite !app_cons. cbn [trim_end]. rewrite IH.
    destruct s; reflexivity.
Qed.

Lemma upto_last_end c s :
  upto_last c (s ++ String c EmptyString)
  = Some (s ++ String c EmptyString)%string.
Proof.
  induction s as [| x s IH].
  - rewrite app_nil. simpl. rewrite Ascii.eqb_refl. reflexivity.
  - rewrite app_cons. cbn [upto_last]. rewrite IH. reflexivity.
Qed.

Lemma no_tick_app s t :
  no_tick (s ++ t) = no_tick s && no_tick t.
Proof.
  induction s as [| c s IH]; [reflexivity |].
  rewrite app_cons. simpl. rewrite IH. apply Bool.andb_assoc.
Qed.


(** One step of the scan at an opening fence. *)
Lemma scan_json_fence rest N :
  remove_all_fuel "```json" (S N) ("```json" ++ String LF rest)
  = remove_all_fuel "```json" N rest.
Proof. reflexivity. Qed.

Lemma scan_plain_fence_kept rest N :
  remove_all_fuel "```json" (S (S (S (S N)))) ("```" ++ String LF rest)
  = String "`" (String "`" (String "`" (String LF
      (remove_all_fuel "```json" N rest)))).
Proof. reflexivity. Qed.

Lemma scan_plain_fence rest N :
  remove_all_fuel "```" (S N) ("```" ++ String LF rest)
  = remove_all_fuel "```" N rest.
Proof. reflexivity. Qed.

(** The clean-up of [robustJsonParse] on a braced text without backticks:
    the bare text is returned as it is, and so is the text wrapped in a
    [json] code fence or in a plain code fence. *)
Theorem cleanJson_unwraps_fence mid :
  no_tick mid = true ->
  let body := ("{" ++ mid ++ "}")%string in
  cleanJson body = body /\
  cleanJson ("```json" ++ String LF (body ++ String LF "```")) = body /\
  cleanJson ("```" ++ String LF (body ++ String LF "```")) = body.
Proof.
  intros Hm body.
  assert (Hbody : body = String "{"%char (mid ++ "}")) by reflexivity.
  assert (Hnt : no_tick body = true).
  { rewrite Hbody. simpl. rewrite no_tick_app, Hm. reflexivity. }
  assert (Htrim : trim body = body).
  { rewrite Hbody. unfold trim. cbn [trim_start].
    change (is_trim_ws "{"%char) with false. cbn iota.
    change (String "{"%char (mid ++ "}"))
      with ((String "{"%char mid) ++ String "}"%char EmptyString)%string.
    apply trim_end_keep. reflexivity. }
  assert (Hspan : match_json_span body = Some body).
  { rewrite Hbody. cbn [match_json_span]. rewrite Ascii.eqb_refl.
    rewrite upto_last_end. reflexivity. }
  assert (Hbare : cleanJson body = body).
  { unfold cleanJson. rewrite (remove_all_no_tick _ body Hnt).
    rewrite (remove_all_no_tick _ body Hnt).
    rewrite Htrim, Hspan. reflexivity. }
  assert (Htrim2 : trim (body ++ String LF EmptyString) = body).
  { rewrite Hbody. unfold trim. rewrite app_cons. cbn [trim_start].
    change (is_trim_ws "{"%char) with false. cbn iota.
    assert (Ea : ((mid ++ "}") ++ String LF EmptyString
                  = mid ++ String "}"%char (String LF EmptyString))%string).
    { clear. induction mid as [| c m IH]; [reflexivity |].
      rewrite !app_cons, IH. reflexivity. }
    rewrite Ea.
    change (String "{"%char (mid ++ String "}"%char (String LF EmptyString)))
      with ((String "{"%char mid)
            ++ String "}"%char (String LF EmptyString))%string.
    rewrite trim_end_drop by reflexivity. reflexivity. }
  set (tail := String LF "```").
  assert (Ltail : String.length (body ++ tail) = (String.length body + 4)%nat)
    by (rewrite length_app; reflexivity).
  assert (P1 : forall k, (4 <= k)%nat ->
             remove_all_fuel "```json" (String.length body + k) (body ++ tail)
             = (body ++ tail)%string).
  { intros k Hk. rewrite remove_all_fuel_skip by (try exact Hnt; lia).
    replace (String.length body + k - String.length body)%nat with k by lia.
    do 4 (destruct k as [| k]; [lia |]). f_equal.
    subst tail. destruct k; reflexivity. }
  assert (P2 : forall k, (2 <= k)%nat ->
             remove_all_fuel "```" (String.length body + k) (body ++ tail)
             = (body ++ String LF EmptyString)%string).
  { intros k Hk. rewrite remove_all_fuel_skip by (try exact Hnt; lia).
    replace (String.length body + k - String.length body)%nat with k by lia.
    do 2 (destruct k as [| k]; [lia |]). f_equal.
    subst tail. destruct k; reflexivity. }
  assert (E2 : remove_all "```" (body ++ tail)
               = (body ++ String LF EmptyString)%string).
  { unfold remove_all. rewrite Ltail.
    replace (S (String.length body + 4)) with (String.length body + 5)%nat
      by lia.
    apply P2. lia. }
  split; [exact Hbare |]. split.
  - unfold cleanJson.
    assert (E1 : remove_all "```json" ("```json" ++ String LF (body ++ tail))
                 = (body ++ tail)%string).
    { unfold remove_all.
      change (String.length ("```json" ++ String LF (body ++ tail)))
        with (8 + String.length (body ++ tail))%nat.
      rewrite scan_json_fence, Ltail.
      replace (8 + (String.length body + 4))%nat
        with (String.length body + 12)%nat by lia.
      apply P1. lia. }
    rewrite E1, E2, Htrim2, Hspan. reflexivity.
  - unfold cleanJson.
    assert (E1 : remove_all "```json" ("```" ++ String LF (body ++ tail))
                 = ("```" ++ String LF (body ++ tail))%string).
    { unfold remove_all.
      change (String.length ("```" ++ String LF (body ++ tail)))
        with (4 + String.length (body ++ tail))%nat.
      change (S (4 + String.length (body ++ tail)))
        with (S (S (S (S (S (String.length (body ++ tail))))))).
      rewrite scan_plain_fence_kept, Ltail.
      replace (S (String.length body + 4)) with (String.length body + 5)%nat
        by lia.
      rewrite P1 by lia. reflexivity. }
    rewrite E1.
    assert (E3 : remove_all "```" ("```" ++ String LF (body ++ tail))
                 = (body ++ String LF EmptyString)%string).
    { unfold remove_all.
      change (String.length ("```" ++ String LF (body ++ tail)))
        with (4 + String.length (body ++ tail))%nat.
      rewrite scan_plain_fence, Ltail.
      replace (4 + (String.length body + 4))%nat
        with (String.length body + 8)%nat by lia.
      apply P2. lia. }
    rewrite E3, Htrim2, Hspan. reflexivity.
Qed.

Lemma cleanJson_unwraps_fence_witness :
  let mid := (quoted "category" ++ ": " ++ quoted "BANANA_999" ++ ", "
              ++ quoted "confidence" ++ ": 0.9")%string in
  no_tick mid = true /\
  cleanJson Samples.unknown_code_reply = ("{" ++ mid ++ "}")%string.
Proof.
  cbv zeta. split; [reflexivity |].
  exact (proj1 (proj2 (cleanJson_unwraps_fence
                         (quoted "category" ++ ": " ++ quoted "BANANA_999"
                          ++ ", " ++ quoted "confidence" ++ ": 0.9")
                         eq_refl))).
Defined.

End ExtractFacts.

(* ================================================================== *)
(** ** Properties of local persistence *)
(* ================================================================== *)

Module StorageFacts.
Import StorageService TransactionManager TransactionFacts.

Lemma save_snoc txs t :
  saveTransactions (txs ++ [t]) = put t (saveTransactions txs).
Proof. unfold saveTransactions. rewrite List.fold_left_app. reflexivity. Qed.

(** Every record is stored under its own identifier. *)
Lemma save_lookup_Some txs k t :
  saveTransactions txs !! k = Some t -> In t txs /\ t_id t = k.
Proof.
  induction txs as [| x txs IH] using List.rev_ind; intros H.
  - unfold saveTransactions in H. simpl in H.
    rewrite lookup_empty in H. discriminate.
  - rewrite save_snoc in H. unfold put in H.
    destruct (decide (t_id x = k)) as [E | E].
    + subst k. rewrite lookup_insert_eq in H. injection H as <-.
      split; [apply List.in_or_app; right; left; reflexivity | reflexivity].
    + rewrite lookup_insert_ne in H by exact E.
      destruct (IH H) as [Hin Hid].
      split; [apply List.in_or_app; left; exact Hin | exact Hid].
Qed.

Lemma save_lookup_in txs t :
  In t txs -> is_Some (saveTransactions txs !! t_id t).
Proof.
  induction txs as [| x txs IH] using List.rev_ind; intros Hin.
  - contradiction.
  - rewrite save_snoc. unfold put.
    destruct (decide (t_id x = t_id t)) as [E | E].
    + rewrite E, lookup_insert_eq. eauto.
    + rewrite lookup_insert_ne by exact E. apply IH.
      apply List.in_app_or in Hin. destruct Hin as [Hin | [-> | []]];
        [exact Hin | contradiction].
Qed.

Lemma save_lookup_unique txs t :
  NoDup (List.map t_id txs) -> In t txs ->
  saveTransactions txs !! t_id t = Some t.
Proof.
  intros Hnd Hin. destruct (save_lookup_in txs t Hin) as [t' Ht'].
  destruct (save_lookup_Some _ _ _ Ht') as [Hin' Hid'].
  rewrite Ht'. f_equal.
  apply (LinkFacts.NoDup_map_inj t_id txs); assumption.
Qed.

Lemma in_insert_by_key x y l :
  In y (insert_by_key x l) <-> y = x \/ In y l.
Proof.
  induction l as [| z l IH]; simpl.
  - intuition.
  - destruct (str_le _ _); simpl; [intuition |]. rewrite IH. intuition.
Qed.

Lemma in_sort_by_key y l : In y (sort_by_key l) <-> In y l.
Proof.
  induction l as [| x l IH]; simpl; [tauto |].
  rewrite in_insert_by_key, IH. intuition.
Qed.

Lemma insert_by_key_perm x l : Permutation (insert_by_key x l) (x :: l).
Proof.
  induction l as [| y l IH]; simpl; [reflexivity |].
  destruct (str_le _ _); [reflexivity |].
  rewrite IH. apply perm_swap.
Qed.

Lemma sort_by_key_perm l : Permutation (sort_by_key l) l.
Proof.
  induction l as [| x l IH]; simpl; [reflexivity |].
  rewrite insert_by_key_perm, IH. reflexivity.
Qed.

Lemma in_load store t :
  In t (loadTransactions store) <-> exists k, store !! k = Some t.
Proof.
  unfold loadTransactions. rewrite List.in_map_iff. split.
  - intros ([k t'] & <- & Hin). apply (proj1 (in_sort_by_key _ _)) in Hin.
    exists k. apply elem_of_map_to_list, list_elem_of_In. exact Hin.
  - intros (k & Hk). exists (k, t). split; [reflexivity |].
    apply in_sort_by_key. apply list_elem_of_In, elem_of_map_to_list. exact Hk.
Qed.

Lemma load_ids txs :
  List.map t_id (loadTransactions (saveTransactions txs))
  = List.map fst (sort_by_key (map_to_list (saveTransactions txs))).
Proof.
  unfold loadTransactions. rewrite List.map_map. apply List.map_ext_in.
  intros [k t] Hin. apply (proj1 (in_sort_by_key _ _)) in Hin.
  apply list_elem_of_In, elem_of_map_to_list in Hin.
  apply save_lookup_Some in Hin. simpl. apply Hin.
Qed.

(** Saving and loading again: what comes back holds one record per
    identifier, all of them records that were saved, every saved identifier
    among them; of several records with one identifier the last one is
    kept.  When the identifiers are all different, exactly the saved records
    come back. *)
Theorem save_then_load txs :
  let loaded := loadTransactions (saveTransactions txs) in
  NoDup (List.map t_id loaded) /\
  (forall t, In t loaded -> In t txs) /\
  (forall t, In t txs -> In (t_id t) (List.map t_id loaded)) /\
  (forall t earlier, txs = (earlier ++ [t])%list -> In t loaded) /\
  (List.length loaded <= List.length txs)%nat /\
  (NoDup (List.map t_id txs) ->
   Permutation loaded txs).
Proof.
  intros loaded.
  assert (Hnd : NoDup (List.map t_id loaded)).
  { unfold loaded. rewrite load_ids.
    rewrite (Permutation_map fst (sort_by_key_perm _)).
    apply NoDup_ListNoDup. exact (NoDup_fst_map_to_list _). }
  assert (Hsub : forall t, In t loaded -> In t txs).
  { intros t Hin. apply in_load in Hin. destruct Hin as (k & Hk).
    apply save_lookup_Some in Hk. apply Hk. }
  assert (Hids : forall t, In t txs -> In (t_id t) (List.map t_id loaded)).
  { intros t Hin. destruct (save_lookup_in txs t Hin) as [t' Ht'].
    destruct (save_lookup_Some _ _ _ Ht') as [_ Hid'].
    rewrite <- Hid'. apply List.in_map, in_load. eauto. }
  assert (Hlen : (List.length loaded <= List.length txs)%nat).
  { rewrite <- (List.length_map t_id loaded), <- (List.length_map t_id txs).
    apply NoDup_incl_length; [exact Hnd |].
    intros k Hk. apply List.in_map_iff in Hk. destruct Hk as (t & <- & Ht).
    apply List.in_map, Hsub, Ht. }
  split; [exact Hnd |]. split; [exact Hsub |]. split; [exact Hids |].
  split; [| split; [exact Hlen |]].
  - intros t earlier ->. apply in_load. exists (t_id t).
    rewrite save_snoc. unfold put. apply lookup_insert_eq.
  - intros Hu. apply Stdlib.Sorting.Permutation.NoDup_Permutation.
    + eapply List.NoDup_map_inv. exact Hnd.
    + eapply List.NoDup_map_inv. exact Hu.
    + intros t. split; [apply Hsub |].
      intros Hin. apply in_load. exists (t_id t).
      apply save_lookup_unique; assumption.
Qed.

Lemma save_then_load_witness :
  let txs := Samples.scenario_txs in
  NoDup (List.map t_id txs) /\
  Permutation (loadTransactions (saveTransactions txs)) txs.
Proof.
  cbv zeta.
  assert (Hu : NoDup (List.map t_id Samples.scenario_txs)).
  { simpl. repeat constructor; simpl; intuition discriminate. }
  split; [exact Hu |].
  exact (proj2 (proj2 (proj2 (proj2 (proj2
           (save_then_load Samples.scenario_txs))))) Hu).
Defined.

(** Two manual entries of the same year share their identifier, so only
    the later one survives a save and reload. *)
Theorem reload_keeps_one_manual_entry_per_year
    Number_toString parseFloat form1 form2 now1 now2 y d1 d2 a1 a2 :
  String.length y = 5%nat ->
  manualDate form1 = (y ++ d1)%string ->
  manualDate form2 = (y ++ d2)%string ->
  parseFloat (manualAmount form1) = Some a1 ->
  parseFloat (manualAmount form2) = Some a2 ->
  manualDesc form1 <> EmptyString -> manualDesc form2 <> EmptyString ->
  let txs := handleManualAdd Number_toString parseFloat form2 now2
               (handleManualAdd Number_toString parseFloat form1 now1 []) in
  List.length txs = 2%nat /\
  exists t, loadTransactions (saveTransactions txs) = [t] /\
            t_description t = manualDesc form2.
Proof.
  intros Hy D1 D2 P1 P2 N1 N2. cbv zeta.
  unfold handleManualAdd. rewrite P1, P2.
  destruct (String.eqb_spec (manualDesc form1) EmptyString);
    [contradiction |].
  destruct (String.eqb_spec (manualDesc form2) EmptyString);
    [contradiction |].
  rewrite D1, D2. cbn [List.app].
  rewrite (manual_id_ignores_timestamp Number_toString y d1 d2
             (manualDesc form1) (manualDesc form2) a1 a2 now1 now2 Hy).
  split; [reflexivity |].
  unfold saveTransactions. cbn [fold_left]. unfold put. cbn [t_id].
  rewrite insert_insert_eq. rewrite insert_empty.
  unfold loadTransactions. rewrite map_to_list_singleton.
  eexists. split; [reflexivity | reflexivity].
Qed.

Lemma reload_keeps_one_manual_entry_per_year_witness :
  let txs := handleManualAdd Encoding.num_to_string
               FormSamples.sample_parseFloat Samples.form_b 1727700000000
               (handleManualAdd Encoding.num_to_string
                  FormSamples.sample_parseFloat Samples.form_a
                  1709300000000 []) in
  List.length txs = 2%nat /\
  exists t, loadTransactions (saveTransactions txs) = [t] /\
            t_description t = "Window cleaner".
Proof.
  exact (reload_keeps_one_manual_entry_per_year Encoding.num_to_string
           FormSamples.sample_parseFloat Samples.form_a Samples.form_b
           1709300000000%Z 1727700000000%Z "2024-" "03-01" "09-30"
           (-45) (-20) eq_refl eq_refl eq_refl eq_refl eq_refl
           ltac:(discriminate) ltac:(discriminate)).
Defined.

End StorageFacts.

(* ================================================================== *)
(** ** Properties of the per-property and per-month figures *)
(* ================================================================== *)

Module BreakdownFacts.
Import Dashboard DashboardBreakdown.










(** *** Months *)












(** *** Properties *)





End BreakdownFacts.
